(** * EPUB/PDF normalizer: blank classification, fingerprinting and deduplication

    A shallow embedding of [normalize_epub.py] (class [EPUBNormalizer] and
    [main]) and the proofs of its specified properties.

    Python [str] values are sequences of Unicode code points: [str] is
    [list N].  The library calls of the program ([str.lower], [hashlib],
    [rapidfuzz.fuzz.ratio], BeautifulSoup, PyMuPDF, ebooklib, [pathlib], the
    file system) are the fields of the class [Externals]; the functions of the
    program itself are defined over them.  Texts are taken to be encodable
    (no lone surrogate, so that [str.encode] returns), chapters to be the
    2-tuples and 3-tuples that the program builds, and floats are binary64
    numbers. *)

From Stdlib Require Import Floats.PrimFloat Uint63.
From stdpp Require Import gmap strings list pretty.

Open Scope N_scope.
Open Scope nat_scope.

(** ** Text *)

Abbreviation str := (list N).

(** A string literal of the source, as code points. *)
Definition lit (s : string) : str :=
  map Ascii.N_of_ascii (String.list_ascii_of_string s).
Arguments lit : simpl never.

(** [Py_UNICODE_ISSPACE]: the code points that [str.strip], [str.isspace] and
    the pattern [\s] of [re] (on [str]) treat as whitespace. *)
Definition isspace (c : N) : bool :=
  (((9 <=? c) && (c <=? 13)) || ((28 <=? c) && (c <=? 32))
   || (c =? 133) || (c =? 160) || (c =? 5760)
   || ((8192 <=? c) && (c <=? 8202))
   || (c =? 8232) || (c =? 8233) || (c =? 8239) || (c =? 8287)
   || (c =? 12288))%N.

(** [re.sub(r'\s+', repl, s)]: every maximal run of whitespace becomes one
    copy of [repl]; [in_run] says that the previous character was whitespace. *)
Fixpoint re_sub_ws_from (repl : str) (in_run : bool) (s : str) : str :=
  match s with
  | [] => []
  | c :: s' =>
      if isspace c
      then (if in_run then [] else repl) ++ re_sub_ws_from repl true s'
      else c :: re_sub_ws_from repl false s'
  end.

Definition re_sub_ws (repl s : str) : str := re_sub_ws_from repl false s.

(** [str.lstrip()], [str.rstrip()] and [str.strip()] with no argument. *)
Fixpoint lstrip (s : str) : str :=
  match s with
  | [] => []
  | c :: s' => if isspace c then lstrip s' else s
  end.

Definition rstrip (s : str) : str := rev (lstrip (rev s)).

Definition strip (s : str) : str := rstrip (lstrip s).

(** [s.startswith(prefix)] and [s.endswith(suffix)]. *)
Fixpoint startswith (prefix s : str) : bool :=
  match prefix, s with
  | [], _ => true
  | _ :: _, [] => false
  | p :: prefix', c :: s' => (p =? c)%N && startswith prefix' s'
  end.

Definition endswith (suffix s : str) : bool := startswith (rev suffix) (rev s).

(** [sep.join(parts)] *)
Fixpoint str_join (sep : str) (parts : list str) : str :=
  match parts with
  | [] => []
  | [part] => part
  | part :: rest => part ++ sep ++ str_join sep rest
  end.

(** [s.split('\n\n')]: [cur] is the piece being read, reversed. *)
Fixpoint split_blank_line_from (cur : str) (s : str) : list str :=
  match s with
  | [] => [rev cur]
  | c :: s' =>
      match s' with
      | d :: s'' =>
          if ((c =? 10) && (d =? 10))%N
          then rev cur :: split_blank_line_from [] s''
          else split_blank_line_from (c :: cur) s'
      | [] => split_blank_line_from (c :: cur) s'
      end
  end.

Definition split_blank_line (s : str) : list str := split_blank_line_from [] s.

(** ['=' * n] *)
Definition rule (n : nat) : str := replicate n 61%N.

Definition nl : str := [10%N].

(** [not s] for a string. *)
Definition str_empty (s : str) : bool :=
  match s with [] => true | _ => false end.

(** ** The blank classifier *)

(** [EPUBNormalizer.is_blank_page(text, html="")]. *)
Definition is_blank_page (text html : str) : bool :=
  let clean_text := re_sub_ws [] text in
  if length clean_text <? 10 then true
  else if length (strip text) <? 10 then true
  else false.

(** The text with every whitespace character removed. *)
Definition without_whitespace (s : str) : str :=
  filter (fun c => isspace c = false) s.

(** ** Library calls *)

Inductive Exn :=
  | ValueError (msg : str)
  | LibraryError (msg : str)
  | OSError (msg : str).

Inductive res (A : Type) :=
  | Ok (a : A)
  | Raise (e : Exn).
Arguments Ok {A} a.
Arguments Raise {A} e.

Definition exn_message (e : Exn) : str :=
  match e with ValueError m | LibraryError m | OSError m => m end.

(** A span, line and block of [page.get_text("dict")["blocks"]]; a field is
    [None] when the key is absent from the dict. *)
Record Span := { span_text : option str; span_size : option float }.
Record Line := { line_spans : option (list Span) }.
Record Block := { block_type : option Z; block_lines : option (list Line) }.

(** A page of a PyMuPDF document: [page.get_text()] and the blocks. *)
Record Page := { page_text : str; page_blocks : list Block }.

(** An item of an ebooklib book: [get_type()], [get_content()], [get_name()]. *)
Record Item := { item_type : Z; item_content : list Byte.byte; item_name : str }.

(** A book read by [epub.read_epub]: its items and, for each Dublin Core
    field, the first value of [get_metadata('DC', field)] if there is one. *)
Record Book := {
  book_items : list Item;
  dc_title : option str;
  dc_creator : option str;
  dc_language : option str;
  dc_publisher : option str
}.

Class Externals := {
  (** [s.lower()] *)
  str_lower : str -> str;
  (** [s.encode()] *)
  str_encode : str -> list Byte.byte;
  (** [b.decode('utf-8', errors='ignore')] *)
  bytes_decode_ignore : list Byte.byte -> str;
  (** [hashlib.sha256(b).hexdigest()] *)
  sha256_hexdigest : list Byte.byte -> str;
  (** [fuzz.ratio(s1, s2)] *)
  fuzz_ratio : str -> str -> float;
  (** [BeautifulSoup(html, 'lxml').get_text()] *)
  soup_get_text : str -> str;
  (** [BeautifulSoup(html, 'lxml').find(tag)], then [.get_text()] of the tag
      found *)
  soup_find_text : str -> str -> option str;
  (** the BeautifulSoup part of [normalize_html]: style attributes deleted,
      [font] and [center] unwrapped, doubled [br] removed, [str(body)] *)
  soup_clean_markup : str -> str;
  (** [re.sub(r'\n\s*\n\s*\n+', '\n\n', content)] *)
  re_sub_blank_lines : str -> str;
  (** [fitz.open(path)], as the list of its pages *)
  fitz_open : str -> res (list Page);
  (** [epub.read_epub(path)] *)
  epub_read_epub : str -> res Book;
  (** [Path(p).suffix], [Path(p).stem], [os.path.join], [os.path.exists] *)
  path_suffix : str -> str;
  path_stem : str -> str;
  path_join : str -> str -> str;
  path_exists : str -> bool;
  (** [str(uuid.uuid4())], [datetime.now().strftime(...)] with the date and the
      date-and-time formats *)
  uuid4_str : str;
  now_date : str;
  now_datetime : str;
  (** the error, if any, of [os.makedirs(d, exist_ok=True)],
      [epub.write_epub(path, book)] and [open(path, 'w')] *)
  makedirs_error : str -> option Exn;
  write_epub_error : str -> option Exn;
  open_write_error : str -> option Exn;
  (** [traceback.print_exc()], as the text it prints *)
  traceback_text : Exn -> str
}.

(** ** State *)

(** The metadata dict of [extract_metadata]. *)
Record Metadata := {
  md_identifier : str; md_language : str; md_publisher : str; md_date : str;
  md_title : str; md_author : str
}.

(** An EPUB chapter as built by [build_epub]. *)
Record EpubHtml := {
  eh_title : str; eh_file_name : str; eh_lang : str; eh_content : str
}.

Record EpubBook := {
  eb_identifier : str; eb_title : str; eb_language : str; eb_author : str;
  eb_publisher : str; eb_date : str; eb_css : str;
  eb_chapters : list EpubHtml
}.

(** What the program leaves on the file system. *)
Inductive FsEvent :=
  | MakeDirs (path : str)
  | WriteEpub (path : str) (book : EpubBook)
  | WriteFile (path : str) (content : str).

(** The attributes of an [EPUBNormalizer] instance (the counters, Python
    integers that only ever grow from 0, are [nat]), and the standard output,
    standard error and file system of the process, which [print],
    [traceback.print_exc] and the writers act on. *)
Record State := {
  input_path : str;
  output_dir : str;
  log : list str;
  removed_duplicates : nat;
  removed_blanks : nat;
  stdout : list str;
  stderr : list str;
  fs : list FsEvent
}.

(** [EPUBNormalizer(input_path, output_dir)] in a process with the given
    output and file system. *)
Definition new_normalizer (input output : str) (out err : list str)
    (files : list FsEvent) : State :=
  {| input_path := input; output_dir := output; log := [];
     removed_duplicates := 0; removed_blanks := 0;
     stdout := out; stderr := err; fs := files |}.

Definition print (self : State) (line : str) : State :=
  {| input_path := input_path self; output_dir := output_dir self;
     log := log self;
     removed_duplicates := removed_duplicates self;
     removed_blanks := removed_blanks self;
     stdout := stdout self ++ [line]; stderr := stderr self; fs := fs self |}.

Definition print_err (self : State) (line : str) : State :=
  {| input_path := input_path self; output_dir := output_dir self;
     log := log self;
     removed_duplicates := removed_duplicates self;
     removed_blanks := removed_blanks self;
     stdout := stdout self; stderr := stderr self ++ [line]; fs := fs self |}.

Definition fs_add (self : State) (ev : FsEvent) : State :=
  {| input_path := input_path self; output_dir := output_dir self;
     log := log self;
     removed_duplicates := removed_duplicates self;
     removed_blanks := removed_blanks self;
     stdout := stdout self; stderr := stderr self; fs := fs self ++ [ev] |}.

(** [self.log_message(msg)] *)
Definition log_message (self : State) (msg : str) : State :=
  let self := print self (lit "[LOG] " ++ msg) in
  {| input_path := input_path self; output_dir := output_dir self;
     log := log self ++ [msg];
     removed_duplicates := removed_duplicates self;
     removed_blanks := removed_blanks self;
     stdout := stdout self; stderr := stderr self; fs := fs self |}.

(** [self.removed_duplicates += 1] *)
Definition incr_removed_duplicates (self : State) : State :=
  {| input_path := input_path self; output_dir := output_dir self;
     log := log self;
     removed_duplicates := removed_duplicates self + 1;
     removed_blanks := removed_blanks self;
     stdout := stdout self; stderr := stderr self; fs := fs self |}.

(** [self.removed_blanks += 1] *)
Definition incr_removed_blanks (self : State) : State :=
  {| input_path := input_path self; output_dir := output_dir self;
     log := log self;
     removed_duplicates := removed_duplicates self;
     removed_blanks := removed_blanks self + 1;
     stdout := stdout self; stderr := stderr self; fs := fs self |}.

(** [str(n)] for a non-negative integer. *)
Definition str_of_nat (n : nat) : str := lit (pretty n).

(** A chapter: the 2-tuple [(title, html)] or the 3-tuple
    [(title, html, text)]. *)
Inductive Chapter :=
  | Chapter2 (title html : str)
  | Chapter3 (title html text : str).

(** The local variables of the loop of [deduplicate_chapters]. *)
Record DedupLocals := {
  unique_chapters : list Chapter;
  seen_hashes : gset (list N);
  seen_texts : list str
}.

(** The default of the parameter [threshold] of [are_similar]. *)
Definition default_threshold : float := 95%float.

Section Program.
Context `{!Externals}.

(** ** Fingerprint and similarity *)

(** [EPUBNormalizer.compute_text_hash(text)] *)
Definition compute_text_hash (text : str) : str :=
  let normalized := re_sub_ws (lit " ") (strip (str_lower text)) in
  sha256_hexdigest (str_encode normalized).

(** [EPUBNormalizer.are_similar(text1, text2, threshold)] *)
Definition are_similar (text1 text2 : str) (threshold : float) : bool :=
  if str_empty text1 || str_empty text2 then false
  else
    let ratio := fuzz_ratio text1 text2 in
    PrimFloat.leb threshold ratio.

(** ** Deduplication *)

(** The unpacking at the head of the loop body: the title, the markup and the
    text of a chapter. *)
Definition chapter_fields (chapter : Chapter) : str * str * str :=
  match chapter with
  | Chapter3 title html text => (title, html, text)
  | Chapter2 title html => (title, html, soup_get_text html)
  end.

Definition chapter_text (chapter : Chapter) : str := (chapter_fields chapter).2.

(** The inner loop over [seen_texts], which stops at the first similar text. *)
Fixpoint similar_to_seen (text : str) (seen : list str) : bool :=
  match seen with
  | [] => false
  | seen_text :: rest =>
      if are_similar text seen_text 95%float then true
      else similar_to_seen text rest
  end.

(** One iteration of the loop of [deduplicate_chapters]. *)
Definition dedup_iter (acc : DedupLocals * State) (chapter : Chapter)
    : DedupLocals * State :=
  let '(loc, self) := acc in
  let '(title, html, text) := chapter_fields chapter in
  let text_hash := compute_text_hash text in
  if decide (text_hash ∈ seen_hashes loc) then
    (loc, log_message (incr_removed_duplicates self)
            (lit "Removed duplicate (hash): " ++ title))
  else if similar_to_seen text (seen_texts loc) then
    (loc, log_message (incr_removed_duplicates self)
            (lit "Removed duplicate (similarity): " ++ title))
  else
    ({| unique_chapters := unique_chapters loc ++ [chapter];
        seen_hashes := seen_hashes loc ∪ {[ text_hash ]};
        seen_texts := seen_texts loc ++ [text] |}, self).

Definition dedup_init : DedupLocals :=
  {| unique_chapters := []; seen_hashes := ∅; seen_texts := [] |}.

(** [EPUBNormalizer.deduplicate_chapters(chapters)]: the survivors and the
    normalizer afterwards. *)
Definition deduplicate_chapters (self : State) (chapters : list Chapter)
    : list Chapter * State :=
  match chapters with
  | [] => (chapters, self)
  | _ =>
      let '(loc, self) := foldl dedup_iter (dedup_init, self) chapters in
      (unique_chapters loc,
       log_message self
         (lit "Kept " ++ str_of_nat (length (unique_chapters loc))
            ++ lit " unique chapters"))
  end.

(** ** Extraction from a PDF *)

(** The body of the loop over the spans of a line, in [_blocks_to_html]. *)
Definition span_iter (line_text : str) (span : Span) : str :=
  let text := default [] (span_text span) in
  let size := default 12%float (span_size span) in
  if PrimFloat.ltb 16 size then line_text ++ lit "<h2>" ++ text ++ lit "</h2>"
  else if PrimFloat.ltb 14 size then
    line_text ++ lit "<h3>" ++ text ++ lit "</h3>"
  else line_text ++ text ++ lit " ".

Definition line_iter (html_parts : list str) (line : Line) : list str :=
  let line_text := foldl span_iter [] (default [] (line_spans line)) in
  if str_empty (strip line_text) then html_parts
  else if startswith (lit "<h") line_text then html_parts ++ [line_text]
  else html_parts ++ [lit "<p>" ++ strip line_text ++ lit "</p>"].

Definition block_iter (html_parts : list str) (block : Block) : list str :=
  match block_type block with
  | Some 0%Z => foldl line_iter html_parts (default [] (block_lines block))
  | _ => html_parts
  end.

Definition para_iter (html_parts : list str) (para : str) : list str :=
  if str_empty (strip para) then html_parts
  else html_parts ++ [lit "<p>" ++ strip para ++ lit "</p>"].

(** [EPUBNormalizer._blocks_to_html(blocks, fallback_text)] *)
Definition blocks_to_html (blocks : list Block) (fallback_text : str) : str :=
  let html_parts := foldl block_iter [] blocks in
  let html_parts :=
    match html_parts with
    | [] => foldl para_iter [] (split_blank_line fallback_text)
    | _ => html_parts
    end in
  str_join nl html_parts.

(** The body of the loop over the pages, in [pdf_to_html_chapters]. *)
Definition pdf_page_iter (page_num : nat) (page : Page)
    (acc : list (str * str) * State) : list (str * str) * State :=
  let '(chapters, self) := acc in
  let text := page_text page in
  if is_blank_page text [] then (chapters, incr_removed_blanks self)
  else
    let html_content := blocks_to_html (page_blocks page) text in
    let title := lit "Page " ++ str_of_nat (page_num + 1) in
    (chapters ++ [(title, html_content)], self).

(** The loop [for page_num in range(len(doc))], from page [page_num] on. *)
Fixpoint pdf_pages_from (page_num : nat) (pages : list Page)
    (acc : list (str * str) * State) : list (str * str) * State :=
  match pages with
  | [] => acc
  | page :: rest =>
      pdf_pages_from (S page_num) rest (pdf_page_iter page_num page acc)
  end.

(** [EPUBNormalizer.pdf_to_html_chapters(pdf_path)] *)
Definition pdf_to_html_chapters (self : State) (pdf_path : str)
    : res (list (str * str)) * State :=
  let self := log_message self (lit "Converting PDF: " ++ pdf_path) in
  match fitz_open pdf_path with
  | Raise e => (Raise e, self)
  | Ok doc =>
      let '(chapters, self) := pdf_pages_from 0 doc ([], self) in
      let self :=
        log_message self
          (lit "Extracted " ++ str_of_nat (length chapters)
             ++ lit " pages from PDF") in
      (Ok chapters, self)
  end.

(** ** Extraction from an EPUB *)

(** The loop over the heading tags: the stripped text of the first tag that
    the document has. *)
Fixpoint first_heading (tags : list str) (content : str) : option str :=
  match tags with
  | [] => None
  | tag :: rest =>
      match soup_find_text tag content with
      | Some heading_text => Some (strip heading_text)
      | None => first_heading rest content
      end
  end.

Definition heading_tags : list str :=
  [lit "h1"; lit "h2"; lit "h3"; lit "title"].

(** The body of the loop over the items, in [extract_epub_chapters]. *)
Definition epub_item_iter (acc : list (str * str * str) * State) (item : Item)
    : list (str * str * str) * State :=
  let '(chapters, self) := acc in
  if (item_type item =? 9)%Z then
    let content := bytes_decode_ignore (item_content item) in
    let text := soup_get_text content in
    if is_blank_page text content then (chapters, incr_removed_blanks self)
    else
      let title :=
        match first_heading heading_tags content with
        | Some t => if str_empty t then item_name item else t
        | None => item_name item
        end in
      (chapters ++ [(title, content, text)], self)
  else acc.

(** [EPUBNormalizer.extract_epub_chapters(epub_path)] *)
Definition extract_epub_chapters (self : State) (epub_path : str)
    : res (list (str * str * str)) * State :=
  let self := log_message self (lit "Reading EPUB: " ++ epub_path) in
  match epub_read_epub epub_path with
  | Raise e => (Raise e, self)
  | Ok book =>
      let '(chapters, self) :=
        foldl epub_item_iter ([], self) (book_items book) in
      let self :=
        log_message self
          (lit "Extracted " ++ str_of_nat (length chapters)
             ++ lit " chapters from EPUB") in
      (Ok chapters, self)
  end.

(** ** Building the output *)

(** [EPUBNormalizer.normalize_html(html)] *)
Definition normalize_html (html : str) : str :=
  re_sub_blank_lines (soup_clean_markup html).

(** [EPUBNormalizer.create_minimal_css()] *)
Definition create_minimal_css : str :=
  strip (lit "
body {
    font-family: serif;
    line-height: 1.5;
    margin: 0;
    padding: 0;
}

p {
    margin: 0 0 1em 0;
    text-indent: 1.5em;
    text-align: justify;
}

h1, h2, h3, h4, h5, h6 {
    font-weight: bold;
    margin: 1.5em 0 0.5em 0;
    text-align: left;
    text-indent: 0;
}

h1 { font-size: 1.8em; }
h2 { font-size: 1.5em; }
h3 { font-size: 1.3em; }

em, i { font-style: italic; }
strong, b { font-weight: bold; }

.chapter-title {
    margin-top: 2em;
    margin-bottom: 1em;
}
").

(** The body of the loop over the chapters, in [build_epub]. *)
Definition build_chapter (metadata : Metadata) (idx : nat)
    (chapter_data : Chapter) : EpubHtml :=
  let '(title, html) :=
    match chapter_data with
    | Chapter3 title html _ => (title, html)
    | Chapter2 title html => (title, html)
    end in
  {| eh_title := title;
     eh_file_name := lit "chapter_" ++ str_of_nat (idx + 1) ++ lit ".xhtml";
     eh_lang := md_language metadata;
     eh_content := normalize_html html |}.

(** [EPUBNormalizer.build_epub(chapters, metadata)] *)
Definition build_epub (chapters : list Chapter) (metadata : Metadata)
    : EpubBook :=
  {| eb_identifier := md_identifier metadata;
     eb_title := md_title metadata;
     eb_language := md_language metadata;
     eb_author := md_author metadata;
     eb_publisher := md_publisher metadata;
     eb_date := md_date metadata;
     eb_css := create_minimal_css;
     eb_chapters := imap (build_chapter metadata) chapters |}.

(** [EPUBNormalizer.extract_metadata(input_path)] *)
Definition extract_metadata (self : State) (path : str) : Metadata * State :=
  if endswith (lit ".epub") (str_lower path) then
    match epub_read_epub path with
    | Ok book =>
        ({| md_identifier := uuid4_str;
            md_language := default (lit "en") (dc_language book);
            md_publisher := default (lit "Self-published") (dc_publisher book);
            md_date := now_date;
            md_title := default (lit "Untitled") (dc_title book);
            md_author := default (lit "Unknown") (dc_creator book) |}, self)
    | Raise e =>
        ({| md_identifier := uuid4_str;
            md_language := lit "en";
            md_publisher := lit "Self-published";
            md_date := now_date;
            md_title := path_stem path;
            md_author := lit "Unknown" |},
         log_message self (lit "Could not extract metadata: " ++ exn_message e))
    end
  else
    ({| md_identifier := uuid4_str;
        md_language := lit "en";
        md_publisher := lit "Self-published";
        md_date := now_date;
        md_title := path_stem path;
        md_author := lit "Unknown" |}, self).

(** ** The report *)

Definition report_text (self : State) (output_path : str) : str :=
  nl ++ rule 60 ++ nl
  ++ lit "EPUB NORMALIZATION REPORT" ++ nl
  ++ rule 60 ++ nl
  ++ lit "Input File: " ++ input_path self ++ nl
  ++ lit "Output File: " ++ output_path ++ nl
  ++ lit "Date: " ++ now_datetime ++ nl
  ++ nl
  ++ lit "STATISTICS:" ++ nl
  ++ lit "- Blank pages removed: " ++ str_of_nat (removed_blanks self) ++ nl
  ++ lit "- Duplicate pages removed: "
  ++ str_of_nat (removed_duplicates self) ++ nl
  ++ lit "- Total pages removed: "
  ++ str_of_nat (removed_blanks self + removed_duplicates self) ++ nl
  ++ nl
  ++ lit "PROCESSING LOG:" ++ nl
  ++ foldl (fun report msg => report ++ lit "  " ++ msg ++ nl) [] (log self)
  ++ nl ++ rule 60 ++ nl
  ++ lit "VALIDATION: Run 'epubcheck cleaned-book.epub' to validate" ++ nl
  ++ rule 60 ++ nl.

(** [EPUBNormalizer.generate_report(output_path)] *)
Definition generate_report (self : State) (output_path : str)
    : res unit * State :=
  let report := report_text self output_path in
  let self := print self report in
  let report_path :=
    path_join (output_dir self) (lit "normalization-report.txt") in
  match open_write_error report_path with
  | Some e => (Raise e, self)
  | None =>
      let self := fs_add self (WriteFile report_path report) in
      let self := print self (nl ++ lit "Report saved to: " ++ report_path) in
      (Ok tt, self)
  end.

(** ** The pipeline *)

(** The conversion of the PDF chapters to 3-tuples, in [process]. *)
Definition to_3tuple (c : str * str) : Chapter :=
  let '(title, html) := c in Chapter3 title html (soup_get_text html).

Definition of_3tuple (c : str * str * str) : Chapter :=
  let '(title, html, text) := c in Chapter3 title html text.

(** The extraction step of [process]: the chapters by input type. *)
Definition extract_chapters (self : State) : res (list Chapter) * State :=
  let input_ext := str_lower (path_suffix (input_path self)) in
  if decide (input_ext = lit ".pdf") then
    match pdf_to_html_chapters self (input_path self) with
    | (Ok chapters, self) => (Ok (map to_3tuple chapters), self)
    | (Raise e, self) => (Raise e, self)
    end
  else if decide (input_ext = lit ".epub") then
    match extract_epub_chapters self (input_path self) with
    | (Ok chapters, self) => (Ok (map of_3tuple chapters), self)
    | (Raise e, self) => (Raise e, self)
    end
  else (Raise (ValueError (lit "Unsupported file format: " ++ input_ext)), self).

(** [EPUBNormalizer.process()]: the output path, or the exception raised. *)
Definition process (self : State) : res str * State :=
  let self :=
    log_message self (lit "Starting normalization of: " ++ input_path self) in
  match extract_chapters self with
  | (Raise e, self) => (Raise e, self)
  | (Ok chapters, self) =>
      let '(chapters, self) := deduplicate_chapters self chapters in
      let '(metadata, self) := extract_metadata self (input_path self) in
      let self :=
        log_message self
          (lit "Metadata: " ++ md_title metadata ++ lit " by "
             ++ md_author metadata) in
      let book := build_epub chapters metadata in
      match makedirs_error (output_dir self) with
      | Some e => (Raise e, self)
      | None =>
          let self := fs_add self (MakeDirs (output_dir self)) in
          let output_path :=
            path_join (output_dir self) (lit "cleaned-book.epub") in
          match write_epub_error output_path with
          | Some e => (Raise e, self)
          | None =>
              let self := fs_add self (WriteEpub output_path book) in
              let self :=
                log_message self (lit "Created EPUB: " ++ output_path) in
              match generate_report self output_path with
              | (Raise e, self) => (Raise e, self)
              | (Ok _, self) => (Ok output_path, self)
              end
          end
      end
  end.

(** The usage message of [main]. *)
Definition usage : list str :=
  [lit "Usage: python normalize_epub.py <input_file.epub|pdf> [output_dir]";
   nl ++ lit "Example:";
   lit "  python normalize_epub.py mybook.epub";
   lit "  python normalize_epub.py mybook.pdf output"].

(** What a process leaves behind: output, error output and file system. *)
Record World := {
  w_stdout : list str; w_stderr : list str; w_fs : list FsEvent
}.

Definition world_of (self : State) : World :=
  {| w_stdout := stdout self; w_stderr := stderr self; w_fs := fs self |}.

(** [main()] on the arguments [sys.argv], in a process with the given output,
    error output and file system: the exit status and what is left. *)
Definition main (argv : list str) (out err : list str) (files : list FsEvent)
    : Z * World :=
  match argv with
  | [] | [_] =>
      (1%Z, {| w_stdout := out ++ usage; w_stderr := err; w_fs := files |})
  | _ :: input_file :: rest =>
      let output_dir := match rest with d :: _ => d | [] => lit "output" end in
      if negb (path_exists input_file) then
        (1%Z,
         {| w_stdout := out ++ [lit "Error: File not found: " ++ input_file];
            w_stderr := err; w_fs := files |})
      else
        let normalizer := new_normalizer input_file output_dir out err files in
        match process normalizer with
        | (Ok output_path, self) =>
            let self :=
              print self
                ([10; 10003]%N ++ lit " Success! Clean EPUB created at: "
                   ++ output_path) in
            let self :=
              print self
                ([10003%N] ++ lit " Test with Kindle Previewer or run: epubcheck "
                   ++ output_path) in
            (0%Z, world_of self)
        | (Raise e, self) =>
            let self :=
              print self
                ([10; 10007]%N ++ lit " Error during processing: "
                   ++ exn_message e) in
            let self := print_err self (traceback_text e) in
            (1%Z, world_of self)
        end
  end.

End Program.

(** ** Specification vocabulary *)

Section Vocabulary.
Context `{!Externals}.

(** Whether the loop of [deduplicate_chapters], with locals [loc], drops a
    chapter of the given text: its hash has been seen, or a seen text is
    similar. *)
Definition is_duplicate (loc : DedupLocals) (text : str) : bool :=
  bool_decide (compute_text_hash text ∈ seen_hashes loc)
  || similar_to_seen text (seen_texts loc).

(** The locals after a chapter has been kept. *)
Definition keep (loc : DedupLocals) (chapter : Chapter) : DedupLocals :=
  {| unique_chapters := unique_chapters loc ++ [chapter];
     seen_hashes := seen_hashes loc ∪ {[ compute_text_hash (chapter_text chapter) ]};
     seen_texts := seen_texts loc ++ [chapter_text chapter] |}.

(** The effect of one iteration on the locals alone. *)
Definition dedup_locals_iter (loc : DedupLocals) (chapter : Chapter)
    : DedupLocals :=
  if is_duplicate loc (chapter_text chapter) then loc else keep loc chapter.

(** What deduplication leaves untouched in the normalizer and the process. *)
Definition dedup_frame (self self' : State) : Prop :=
  input_path self' = input_path self
  /\ output_dir self' = output_dir self
  /\ removed_blanks self' = removed_blanks self
  /\ stderr self' = stderr self
  /\ fs self' = fs self.

(** What extraction leaves untouched. *)
Definition extract_frame (self self' : State) : Prop :=
  input_path self' = input_path self
  /\ output_dir self' = output_dir self
  /\ removed_duplicates self' = removed_duplicates self
  /\ stderr self' = stderr self
  /\ fs self' = fs self.

(** The content documents of a book: the items that [extract_epub_chapters]
    looks at. *)
Definition is_xhtml (item : Item) : bool := (item_type item =? 9)%Z.

(** The text on which an item is classified. *)
Definition item_text (item : Item) : str :=
  soup_get_text (bytes_decode_ignore (item_content item)).

Definition item_blank (item : Item) : bool :=
  is_blank_page (item_text item) (bytes_decode_ignore (item_content item)).

Definition page_blank (page : Page) : bool := is_blank_page (page_text page) [].

(** The number of content units of the input of a run: the pages of a PDF,
    the content documents of an EPUB. *)
Definition input_unit_count (path : str) : nat :=
  let input_ext := str_lower (path_suffix path) in
  if decide (input_ext = lit ".pdf") then
    match fitz_open path with Ok doc => length doc | Raise _ => 0 end
  else if decide (input_ext = lit ".epub") then
    match epub_read_epub path with
    | Ok book => length (base.filter (fun i => is_xhtml i = true) (book_items book))
    | Raise _ => 0
    end
  else 0.

(** The pages of a document with their numbers, from [page_num] on. *)
Definition numbered (page_num : nat) (pages : list Page) : list (nat * Page) :=
  zip (seq page_num (length pages)) pages.

(** The chapter that [pdf_to_html_chapters] makes of a page it keeps. *)
Definition pdf_chapter (np : nat * Page) : str * str :=
  (lit "Page " ++ str_of_nat (np.1 + 1),
   blocks_to_html (page_blocks np.2) (page_text np.2)).

(** The chapter that [extract_epub_chapters] makes of an item it keeps. *)
Definition epub_chapter (item : Item) : str * str * str :=
  let content := bytes_decode_ignore (item_content item) in
  (match first_heading heading_tags content with
   | Some t => if str_empty t then item_name item else t
   | None => item_name item
   end, content, soup_get_text content).

End Vocabulary.

(** The pieces of a text between its whitespace characters (some may be
    empty), and its words: the maximal runs without whitespace. *)
Fixpoint segments (s : str) : list str :=
  match s with
  | [] => [[]]
  | c :: s' =>
      if isspace c then [] :: segments s'
      else
        match segments s' with
        | seg :: segs => (c :: seg) :: segs
        | [] => [[c]]
        end
  end.

Definition nonempty (s : str) : Prop := s <> [].

Definition words (s : str) : list str := base.filter nonempty (segments s).

Definition no_whitespace (s : str) : Prop := Forall (fun c => isspace c = false) s.

(** Two texts that differ only in letter case and in the style of their
    whitespace: they have the same words, up to the case of each word. *)
Definition same_words_up_to_case `{!Externals} (a b : str) : Prop :=
  Forall2 (fun u v => str_lower u = str_lower v) (words a) (words b).

(** What the theorems on case assume of [str.lower]: it maps the empty string
    to itself, it leaves whitespace characters where they are and lower-cases
    the pieces between them separately, and it brings no whitespace into a
    piece that had none.  (Python's [str.lower] maps each character by
    itself, but for the capital sigma, whose context ends at the nearest
    character that is not case-ignorable; whitespace is not, and has no case
    mapping.) *)
Definition lower_keeps_whitespace `{!Externals} : Prop :=
  str_lower [] = []
  /\ (forall u w v, isspace w = true ->
        str_lower (u ++ w :: v) = str_lower u ++ w :: str_lower v)
  /\ (forall u, no_whitespace u -> no_whitespace (str_lower u)).



(** ** A sample environment

    An instance of [Externals] on which the program runs inside Rocq: ASCII
    lower-casing, the encoded bytes themselves in place of a digest, the
    normalized Indel similarity that [fuzz.ratio] is documented to return,
    markup read as its own text, and a fixed four-page document (and book)
    behind every path. *)

Module Sample.

Definition lower_char (c : N) : N :=
  if ((65 <=? c) && (c <=? 90))%N then (c + 32)%N else c.

Definition lower (s : str) : str := map lower_char s.

Definition encode (s : str) : list Byte.byte :=
  map (fun c => default Byte.x00 (Byte.of_N c)) s.

Definition decode (b : list Byte.byte) : str := map Byte.to_N b.

(** One row of the longest-common-subsequence table: [old] is the previous
    row, [diag] and [left] the entries above-left and left of the next one. *)
Fixpoint lcs_row (x : N) (ys : str) (old : list nat) (diag left : nat)
    : list nat :=
  match ys, old with
  | y :: ys', up :: old' =>
      let v := if (x =? y)%N then S diag else Nat.max up left in
      v :: lcs_row x ys' old' up v
  | _, _ => []
  end.

Definition lcs (s1 s2 : str) : nat :=
  List.last
    (foldl (fun row x => lcs_row x s2 row 0 0) (replicate (length s2) 0) s1) 0.

Definition float_of_nat (n : nat) : float :=
  PrimFloat.of_uint63 (Uint63.of_Z (Z.of_nat n)).

Definition indel_ratio (s1 s2 : str) : float :=
  let total := length s1 + length s2 in
  if total =? 0 then 100%float
  else
    let dist := total - 2 * lcs s1 s2 in
    ((1 - float_of_nat dist / float_of_nat total) * 100)%float.

(** The part of a path from its last dot on. *)
Fixpoint suffix (s : str) : str :=
  match s with
  | [] => []
  | c :: s' =>
      match suffix s' with
      | [] => if (c =? 46)%N then s else []
      | suf => suf
      end
  end.

Definition page_of (s : string) : Page :=
  {| page_text := lit s; page_blocks := [] |}.

Definition item_of (name s : string) : Item :=
  {| item_type := 9; item_content := encode (lit s); item_name := lit name |}.

Definition pages : list Page :=
  [page_of "Hello world, this is chapter one.";
   page_of "   ";
   page_of "Hello world, this is chapter one.";
   page_of "A completely different unrelated passage about something else entirely."].

Definition book : Book :=
  {| book_items :=
       [item_of "a.xhtml" "Hello world, this is chapter one.";
        item_of "b.xhtml" "   ";
        {| item_type := 2; item_content := []; item_name := lit "style.css" |};
        item_of "c.xhtml" "Hello world, this is chapter one.";
        item_of "d.xhtml" "A completely different unrelated passage about something else entirely."];
     dc_title := Some (lit "Sample");
     dc_creator := None;
     dc_language := None;
     dc_publisher := None |}.

#[export] Instance externals : Externals := {|
  str_lower := lower;
  str_encode := encode;
  bytes_decode_ignore := decode;
  sha256_hexdigest := decode;
  fuzz_ratio := indel_ratio;
  soup_get_text := fun html => html;
  soup_find_text := fun _ _ => None;
  soup_clean_markup := fun html => html;
  re_sub_blank_lines := fun content => content;
  fitz_open := fun _ => Ok pages;
  epub_read_epub := fun _ => Ok book;
  path_suffix := suffix;
  path_stem := fun p => p;
  path_join := fun d f => d ++ lit "/" ++ f;
  path_exists := fun _ => true;
  uuid4_str := lit "00000000-0000-4000-8000-000000000000";
  now_date := lit "2024-01-01";
  now_datetime := lit "2024-01-01 00:00:00";
  makedirs_error := fun _ => None;
  write_epub_error := fun _ => None;
  open_write_error := fun _ => None;
  traceback_text := exn_message
|}.

(** The units of the scenario of the specification. *)
Definition unit_A : Chapter :=
  Chapter3 (lit "A") (lit "<p>a</p>") (lit "Hello world, this is chapter one.").
Definition unit_B : Chapter :=
  Chapter3 (lit "B") (lit "<p>b</p>") (lit "   ").
Definition unit_C : Chapter :=
  Chapter3 (lit "C") (lit "<p>c</p>") (lit "Hello world, this is chapter one.").
Definition unit_D : Chapter :=
  Chapter3 (lit "D") (lit "<p>d</p>")
    (lit "A completely different unrelated passage about something else entirely.").

Definition fresh (input : string) : State :=
  new_normalizer (lit input) (lit "output") [] [] [].

End Sample.

(** ** Vocabulary for the loop of deduplication *)

Section DedupVocabulary.
Context `{!Externals}.

Definition chapter_hash (c : Chapter) : str :=
  compute_text_hash (chapter_text c).

(** The locals of the loop when the chapters kept so far are [kept]. *)
Definition locals_of (kept : list Chapter) : DedupLocals :=
  {| unique_chapters := kept;
     seen_hashes := list_to_set (map chapter_hash kept);
     seen_texts := map chapter_text kept |}.

(** [c] is a duplicate of the survivor [s]: same hash, or similar text. *)
Definition duplicates (c s : Chapter) : Prop :=
  chapter_hash c = chapter_hash s
  \/ are_similar (chapter_text c) (chapter_text s) 95%float = true.

(** The chapters that the loop adds to [kept] when it reads [chapters]. *)
Fixpoint kept_after (kept chapters : list Chapter) : list Chapter :=
  match chapters with
  | [] => []
  | c :: rest =>
      if is_duplicate (locals_of kept) (chapter_text c)
      then kept_after kept rest
      else c :: kept_after (kept ++ [c]) rest
  end.

(** No chapter of [l] is a duplicate of a chapter of [kept] or of an earlier
    chapter of [l]. *)
Fixpoint unlike_earlier (kept l : list Chapter) : Prop :=
  match l with
  | [] => True
  | c :: rest =>
      (forall s, s ∈ kept -> ~ duplicates c s)
      /\ unlike_earlier (kept ++ [c]) rest
  end.

(** The message that closes the log of a deduplication. *)
Definition kept_message (survivors : list Chapter) : str :=
  lit "Kept " ++ str_of_nat (length survivors) ++ lit " unique chapters".

End DedupVocabulary.

(** ** Vocabulary for the pipeline and its output *)

Definition chapter_title (c : Chapter) : str :=
  match c with Chapter2 title _ | Chapter3 title _ _ => title end.

Definition chapter_html (c : Chapter) : str :=
  match c with Chapter2 _ html | Chapter3 _ html _ => html end.

(** The name that [build_epub] gives to the file of chapter [idx]. *)
Definition chapter_file_name (idx : nat) : str :=
  lit "chapter_" ++ str_of_nat (idx + 1) ++ lit ".xhtml".

Definition is_text_block (b : Block) : Prop := block_type b = Some 0%Z.

#[global] Instance is_text_block_dec (b : Block) : Decision (is_text_block b).
Proof. unfold is_text_block. apply _. Defined.

(** The paragraphs that [_blocks_to_html] makes of the text of a page when
    its blocks give nothing. *)
Definition fallback_paragraphs (fallback_text : str) : list str :=
  map (fun para => lit "<p>" ++ strip para ++ lit "</p>")
    (base.filter (fun para => strip para <> []) (split_blank_line fallback_text)).

(** The lines of the report that list the log. *)
Definition log_lines (msgs : list str) : str :=
  concat (map (fun msg => lit "  " ++ msg ++ nl) msgs).

Section PipelineVocabulary.
Context `{!Externals}.

Definition book_path (dir : str) : str :=
  path_join dir (lit "cleaned-book.epub").

Definition report_path (dir : str) : str :=
  path_join dir (lit "normalization-report.txt").

(** The directory that [main] writes to. *)
Definition output_dir_of (rest : list str) : str :=
  match rest with d :: _ => d | [] => lit "output" end.

End PipelineVocabulary.

(** The sample environment with a chosen document, book and write errors. *)
Module Faulty.

Definition externals (doc : res (list Page)) (bk : res Book)
    (mk wr op : option Exn) : Externals := {|
  str_lower := Sample.lower;
  str_encode := Sample.encode;
  bytes_decode_ignore := Sample.decode;
  sha256_hexdigest := Sample.decode;
  fuzz_ratio := Sample.indel_ratio;
  soup_get_text := fun html => html;
  soup_find_text := fun _ _ => None;
  soup_clean_markup := fun html => html;
  re_sub_blank_lines := fun content => content;
  fitz_open := fun _ => doc;
  epub_read_epub := fun _ => bk;
  path_suffix := Sample.suffix;
  path_stem := fun p => p;
  path_join := fun d f => d ++ lit "/" ++ f;
  path_exists := fun _ => true;
  uuid4_str := lit "00000000-0000-4000-8000-000000000000";
  now_date := lit "2024-01-01";
  now_datetime := lit "2024-01-01 00:00:00";
  makedirs_error := fun _ => mk;
  write_epub_error := fun _ => wr;
  open_write_error := fun _ => op;
  traceback_text := exn_message
|}.

Definition corrupt : Exn := LibraryError (lit "cannot open document").

Definition denied : Exn := OSError (lit "Permission denied").

Definition blank_pages : list Page :=
  [Sample.page_of ""; Sample.page_of "  12  "; Sample.page_of "- 3 -"].

(** No document can be opened. *)
Definition unreadable : Externals :=
  externals (Raise corrupt) (Raise corrupt) None None None.

(** Every document has the three blank pages. *)
Definition all_blank : Externals :=
  externals (Ok blank_pages) (Raise corrupt) None None None.

End Faulty.

(** ** Text lemmas *)

Lemma re_sub_ws_from_nil (b : bool) (s : str) :
  re_sub_ws_from [] b s = without_whitespace s.
Proof.
  revert b. induction s as [|c s IH]; intros b; [done|].
  cbn [re_sub_ws_from]. unfold without_whitespace. rewrite filter_cons.
  destruct (isspace c) eqn:Hc.
  - rewrite IH. destruct b; cbn; case_decide; done.
  - rewrite IH. case_decide; done.
Qed.

Lemma without_whitespace_length_le (s : str) :
  length (without_whitespace s) <= length s.
Proof. apply length_filter. Qed.

Lemma without_whitespace_app (s t : str) :
  without_whitespace (s ++ t) = without_whitespace s ++ without_whitespace t.
Proof. apply filter_app. Qed.

Lemma without_whitespace_rev (s : str) :
  without_whitespace (rev s) = rev (without_whitespace s).
Proof.
  induction s as [|c s IH]; [done|]. cbn [rev].
  rewrite without_whitespace_app, IH.
  unfold without_whitespace. rewrite !filter_cons, filter_nil.
  case_decide; cbn [rev]; [done|by rewrite app_nil_r].
Qed.

Lemma without_whitespace_lstrip (s : str) :
  without_whitespace (lstrip s) = without_whitespace s.
Proof.
  induction s as [|c s IH]; [done|]. cbn [lstrip].
  destruct (isspace c) eqn:Hc; [|done].
  rewrite IH. unfold without_whitespace. rewrite filter_cons.
  case_decide; [congruence|done].
Qed.

Lemma without_whitespace_strip (s : str) :
  without_whitespace (strip s) = without_whitespace s.
Proof.
  unfold strip, rstrip.
  rewrite without_whitespace_rev, without_whitespace_lstrip,
    without_whitespace_rev, rev_involutive.
  apply without_whitespace_lstrip.
Qed.

Lemma strip_length_ge (s : str) :
  length (without_whitespace s) <= length (strip s).
Proof.
  rewrite <- (without_whitespace_strip s). apply without_whitespace_length_le.
Qed.

(** ** The blank classifier: properties *)

(** C7: [is_blank_page] returns true exactly when the text with all whitespace
    removed is shorter than 10 characters; the branch on [len(text.strip())]
    can never fire once the first test has failed. *)
Theorem is_blank_page_iff_short_without_whitespace (text html : str) :
  (is_blank_page text html = true <-> length (without_whitespace text) < 10)
  /\ ((length (re_sub_ws [] text) <? 10) = false ->
      (length (strip text) <? 10) = false).
Proof.
  unfold is_blank_page, re_sub_ws. rewrite re_sub_ws_from_nil.
  pose proof (strip_length_ge text) as Hle.
  split.
  - destruct (length (without_whitespace text) <? 10) eqn:H1.
    + apply Nat.ltb_lt in H1. done.
    + apply Nat.ltb_ge in H1.
      destruct (length (strip text) <? 10) eqn:H2.
      * apply Nat.ltb_lt in H2. lia.
      * split; [done|lia].
  - intros H1. apply Nat.ltb_ge in H1. apply Nat.ltb_ge. lia.
Qed.

(** C10: the [html] argument of [is_blank_page] is never read: the result
    depends on [text] alone. *)
Theorem is_blank_page_ignores_html (text h1 h2 : str) :
  is_blank_page text h1 = is_blank_page text h2.
Proof. reflexivity. Qed.

(** ** Deduplication: the loop *)

Section Deduplication.
Context `{!Externals}.

Lemma dedup_frame_refl (self : State) : dedup_frame self self.
Proof. by repeat split. Qed.

Lemma dedup_frame_trans (s1 s2 s3 : State) :
  dedup_frame s1 s2 -> dedup_frame s2 s3 -> dedup_frame s1 s3.
Proof. unfold dedup_frame. intros (?&?&?&?&?) (?&?&?&?&?). repeat split; congruence. Qed.

Lemma dedup_frame_removed (self : State) (msg : str) :
  dedup_frame self (log_message (incr_removed_duplicates self) msg).
Proof. by repeat split. Qed.

Lemma dedup_frame_log (self : State) (msg : str) :
  dedup_frame self (log_message self msg).
Proof. by repeat split. Qed.

Lemma chapter_fields_text (chapter : Chapter) :
  exists title html, chapter_fields chapter = (title, html, chapter_text chapter).
Proof. destruct chapter; cbn; eauto. Qed.

Lemma dedup_iter_duplicate (loc : DedupLocals) (self : State) (chapter : Chapter) :
  is_duplicate loc (chapter_text chapter) = true ->
  exists msg,
    dedup_iter (loc, self) chapter
    = (loc, log_message (incr_removed_duplicates self) msg).
Proof.
  intros Hdup. unfold dedup_iter.
  destruct (chapter_fields_text chapter) as (title & html & ->).
  unfold is_duplicate in Hdup.
  case_decide as Hin; [eauto|].
  rewrite bool_decide_eq_false_2 in Hdup by done. cbn in Hdup.
  rewrite Hdup. eauto.
Qed.

Lemma dedup_iter_fresh (loc : DedupLocals) (self : State) (chapter : Chapter) :
  is_duplicate loc (chapter_text chapter) = false ->
  dedup_iter (loc, self) chapter = (keep loc chapter, self).
Proof.
  intros Hdup. unfold dedup_iter.
  destruct (chapter_fields_text chapter) as (title & html & ->).
  unfold is_duplicate in Hdup. apply orb_false_elim in Hdup as [Hh Hs].
  apply bool_decide_eq_false_1 in Hh.
  case_decide; [done|]. by rewrite Hs.
Qed.

Lemma dedup_iter_locals (loc : DedupLocals) (self : State) (chapter : Chapter) :
  (dedup_iter (loc, self) chapter).1 = dedup_locals_iter loc chapter.
Proof.
  unfold dedup_locals_iter.
  destruct (is_duplicate loc (chapter_text chapter)) eqn:Hdup.
  - destruct (dedup_iter_duplicate loc self chapter Hdup) as [msg ->]. done.
  - by rewrite dedup_iter_fresh.
Qed.

Lemma dedup_fold_locals (chapters : list Chapter) (loc : DedupLocals) (self : State) :
  (foldl dedup_iter (loc, self) chapters).1 = foldl dedup_locals_iter loc chapters.
Proof.
  revert loc self. induction chapters as [|c cs IH]; intros loc self; [done|].
  cbn [foldl]. rewrite <- (dedup_iter_locals loc self c).
  destruct (dedup_iter (loc, self) c) as [loc' self']. apply IH.
Qed.

(** The loop keeps a subsequence of what it reads, appends it to the chapters
    kept so far, and counts every chapter it drops as a duplicate. *)
Lemma dedup_fold_spec (chapters : list Chapter) (loc : DedupLocals) (self : State) :
  exists kept,
    unique_chapters (foldl dedup_iter (loc, self) chapters).1
    = unique_chapters loc ++ kept
    /\ sublist kept chapters
    /\ removed_duplicates (foldl dedup_iter (loc, self) chapters).2 + length kept
       = removed_duplicates self + length chapters
    /\ dedup_frame self (foldl dedup_iter (loc, self) chapters).2.
Proof.
  revert loc self. induction chapters as [|c cs IH]; intros loc self.
  - exists []. cbn. rewrite app_nil_r.
    split; [done|]. split; [constructor|]. split; [lia|apply dedup_frame_refl].
  - cbn [foldl].
    destruct (is_duplicate loc (chapter_text c)) eqn:Hdup.
    + destruct (dedup_iter_duplicate loc self c Hdup) as [msg ->].
      destruct (IH loc (log_message (incr_removed_duplicates self) msg))
        as (kept & Hu & Hsub & Hcount & Hframe).
      exists kept. split; [done|]. split; [by apply sublist_cons_r; left|].
      split.
      * rewrite Hcount. cbn. lia.
      * eapply dedup_frame_trans; [apply dedup_frame_removed|done].
    + rewrite dedup_iter_fresh by done.
      destruct (IH (keep loc c) self) as (kept & Hu & Hsub & Hcount & Hframe).
      exists (c :: kept). split; [|split; [|split]].
      * rewrite Hu. cbn. by rewrite <- app_assoc.
      * by constructor.
      * cbn [length]. lia.
      * done.
Qed.

Lemma deduplicate_chapters_fold (self : State) (chapters : list Chapter) :
  (deduplicate_chapters self chapters).1
  = unique_chapters (foldl dedup_locals_iter dedup_init chapters).
Proof.
  destruct chapters as [|c cs]; [done|].
  unfold deduplicate_chapters.
  rewrite <- (dedup_fold_locals (c :: cs) dedup_init self).
  by destruct (foldl dedup_iter (dedup_init, self) (c :: cs)).
Qed.

(** [deduplicate_chapters] as a whole. *)
Lemma deduplicate_chapters_spec (self : State) (chapters : list Chapter) :
  sublist (deduplicate_chapters self chapters).1 chapters
  /\ removed_duplicates (deduplicate_chapters self chapters).2
     + length (deduplicate_chapters self chapters).1
     = removed_duplicates self + length chapters
  /\ dedup_frame self (deduplicate_chapters self chapters).2.
Proof.
  destruct chapters as [|c cs].
  - cbn. split; [constructor|]. split; [lia|apply dedup_frame_refl].
  - unfold deduplicate_chapters.
    destruct (dedup_fold_spec (c :: cs) dedup_init self)
      as (kept & Hu & Hsub & Hcount & Hframe).
    destruct (foldl dedup_iter (dedup_init, self) (c :: cs)) as [loc self'].
    cbn [fst snd] in *. cbn [unique_chapters dedup_init app] in Hu. subst kept.
    split; [done|]. split; [done|].
    eapply dedup_frame_trans; [done|apply dedup_frame_log].
Qed.

End Deduplication.

(** ** Deduplication: properties *)

Section DeduplicationProperties.
Context `{!Externals}.

(** C3: the survivors of [deduplicate_chapters] are a subsequence of its
    input: each survivor is a unit of the input, and the survivors stand in
    the order they have in the input. *)
Theorem survivors_form_a_subsequence (self : State) (chapters : list Chapter) :
  sublist (deduplicate_chapters self chapters).1 chapters
  /\ (forall c, c ∈ (deduplicate_chapters self chapters).1 -> c ∈ chapters).
Proof.
  destruct (deduplicate_chapters_spec self chapters) as (Hsub & _).
  split; [done|]. intros c Hc. by apply (sublist_subseteq _ _ Hsub).
Qed.

Lemma is_duplicate_init (text : str) : is_duplicate dedup_init text = false.
Proof.
  unfold is_duplicate. cbn. rewrite bool_decide_eq_false_2; [done|].
  apply not_elem_of_empty.
Qed.

Lemma dedup_locals_fold_prefix (chapters : list Chapter) (loc : DedupLocals) :
  exists kept,
    unique_chapters (foldl dedup_locals_iter loc chapters)
    = unique_chapters loc ++ kept.
Proof.
  revert loc. induction chapters as [|c cs IH]; intros loc.
  - exists []. by rewrite app_nil_r.
  - cbn [foldl]. destruct (IH (dedup_locals_iter loc c)) as [kept ->].
    unfold dedup_locals_iter.
    destruct (is_duplicate loc (chapter_text c)); [eauto|].
    exists (c :: kept). cbn. by rewrite <- app_assoc.
Qed.

Lemma deduplicate_chapters_head (self : State) (c : Chapter) (cs : list Chapter) :
  exists rest, (deduplicate_chapters self (c :: cs)).1 = c :: rest.
Proof.
  rewrite deduplicate_chapters_fold. cbn [foldl].
  unfold dedup_locals_iter at 2. rewrite is_duplicate_init.
  destruct (dedup_locals_fold_prefix cs (keep dedup_init c)) as [kept ->].
  exists kept. done.
Qed.

Lemma deduplicate_chapters_blanks (self : State) (chapters : list Chapter) :
  removed_blanks (deduplicate_chapters self chapters).2 = removed_blanks self.
Proof.
  destruct (deduplicate_chapters_spec self chapters) as (_ & _ & Hframe).
  apply Hframe.
Qed.

(** C9: the first unit of a non-empty input is always the first survivor,
    whatever its text, blank or empty included: [deduplicate_chapters] makes
    no blank check (it leaves the blank counter alone) and nothing has been
    seen when the first unit is read. *)
Theorem first_unit_is_always_kept (self : State) (c : Chapter)
    (cs : list Chapter) :
  (exists rest, (deduplicate_chapters self (c :: cs)).1 = c :: rest)
  /\ removed_blanks (deduplicate_chapters self (c :: cs)).2
     = removed_blanks self.
Proof.
  split; [apply deduplicate_chapters_head|apply deduplicate_chapters_blanks].
Qed.








End DeduplicationProperties.

(** ** Extraction *)

Section Extraction.
Context `{!Externals}.

Lemma extract_frame_refl (self : State) : extract_frame self self.
Proof. by repeat split. Qed.

Lemma extract_frame_trans (s1 s2 s3 : State) :
  extract_frame s1 s2 -> extract_frame s2 s3 -> extract_frame s1 s3.
Proof.
  unfold extract_frame. intros (?&?&?&?&?) (?&?&?&?&?).
  repeat split; congruence.
Qed.

Lemma extract_frame_log (self : State) (msg : str) :
  extract_frame self (log_message self msg).
Proof. by repeat split. Qed.

Lemma extract_frame_blank (self : State) :
  extract_frame self (incr_removed_blanks self).
Proof. by repeat split. Qed.

(** The loop over the pages keeps, in order, the chapters of the pages that
    are not blank, and counts the blank ones. *)
Lemma pdf_pages_from_spec (pages : list Page) (page_num : nat)
    (chapters : list (str * str)) (self : State) :
  (pdf_pages_from page_num pages (chapters, self)).1
  = chapters
    ++ map pdf_chapter
         (base.filter (fun np => page_blank np.2 = false) (numbered page_num pages))
  /\ removed_blanks (pdf_pages_from page_num pages (chapters, self)).2
     = removed_blanks self
       + length (base.filter (fun p => page_blank p = true) pages)
  /\ extract_frame self (pdf_pages_from page_num pages (chapters, self)).2.
Proof.
  revert page_num chapters self.
  induction pages as [|p pages IH]; intros page_num chapters self.
  - cbn. rewrite app_nil_r. split; [done|]. split; [lia|apply extract_frame_refl].
  - cbn [pdf_pages_from]. unfold numbered. cbn [length seq zip zip_with].
    rewrite !filter_cons. cbn [snd]. unfold pdf_page_iter.
    fold (page_blank p). destruct (page_blank p) eqn:Hblank.
    + destruct (IH (S page_num) chapters (incr_removed_blanks self))
        as (Hc & Hb & Hf).
      rewrite Hc, Hb. case_decide; [done|]. case_decide; [|done].
      split; [done|]. split; [cbn; lia|].
      eapply extract_frame_trans; [apply extract_frame_blank|done].
    + destruct (IH (S page_num)
                  (chapters ++ [(lit "Page " ++ str_of_nat (page_num + 1),
                                 blocks_to_html (page_blocks p) (page_text p))])
                  self) as (Hc & Hb & Hf).
      rewrite Hc, Hb. case_decide; [|done]. case_decide; [done|].
      split; [|done]. rewrite <- app_assoc. done.
Qed.

(** The loop over the items keeps, in order, the chapters of the content
    documents that are not blank, and counts the blank ones. *)
Lemma epub_items_spec (items : list Item)
    (chapters : list (str * str * str)) (self : State) :
  (foldl epub_item_iter (chapters, self) items).1
  = chapters
    ++ map epub_chapter
         (base.filter (fun i => is_xhtml i = true /\ item_blank i = false) items)
  /\ removed_blanks (foldl epub_item_iter (chapters, self) items).2
     = removed_blanks self
       + length (base.filter (fun i => is_xhtml i = true /\ item_blank i = true) items)
  /\ extract_frame self (foldl epub_item_iter (chapters, self) items).2.
Proof.
  revert chapters self.
  induction items as [|i items IH]; intros chapters self.
  - cbn. rewrite app_nil_r. split; [done|]. split; [lia|apply extract_frame_refl].
  - cbn [foldl]. rewrite !filter_cons. unfold epub_item_iter at 2 4 6.
    fold (is_xhtml i). destruct (is_xhtml i) eqn:Hx.
    + fold (item_text i). fold (item_blank i).
      destruct (item_blank i) eqn:Hblank.
      * destruct (IH chapters (incr_removed_blanks self)) as (Hc & Hb & Hf).
        rewrite Hc, Hb.
        case_decide as H1; [by destruct H1|]. case_decide as H2; [|by destruct H2].
        split; [done|]. split; [cbn; lia|].
        eapply extract_frame_trans; [apply extract_frame_blank|done].
      * destruct (IH (chapters ++ [epub_chapter i]) self) as (Hc & Hb & Hf).
        unfold epub_chapter in Hc, Hb, Hf at 1. unfold item_text.
        rewrite Hc, Hb.
        case_decide as H1; [|by destruct H1]. case_decide as H2; [by destruct H2|].
        split; [|done]. rewrite <- app_assoc. done.
    + destruct (IH chapters self) as (Hc & Hb & Hf). rewrite Hc, Hb.
      case_decide as H1; [by destruct H1|]. case_decide as H2; [by destruct H2|].
      done.
Qed.

End Extraction.

(** ** The pipeline *)

Section Pipeline.
Context `{!Externals}.

Lemma numbered_partition (pages : list Page) (page_num : nat) :
  length (base.filter (fun np : nat * Page => page_blank np.2 = false)
            (numbered page_num pages))
  + length (base.filter (fun p => page_blank p = true) pages)
  = length pages.
Proof.
  revert page_num. induction pages as [|p pages IH]; intros page_num; [done|].
  unfold numbered. cbn [length seq zip zip_with]. rewrite !filter_cons.
  cbn [snd]. specialize (IH (S page_num)). unfold numbered in IH.
  destruct (page_blank p); repeat case_decide; try done; cbn [length]; lia.
Qed.

Lemma items_partition (items : list Item) :
  length (base.filter (fun i => is_xhtml i = true /\ item_blank i = false) items)
  + length (base.filter (fun i => is_xhtml i = true /\ item_blank i = true) items)
  = length (base.filter (fun i => is_xhtml i = true) items).
Proof.
  induction items as [|i items IH]; [done|]. rewrite !filter_cons.
  destruct (is_xhtml i), (item_blank i); repeat case_decide;
    try done; try tauto; cbn [length]; lia.
Qed.

(** Extraction accounts for every unit of the input: it is either passed on
    or counted as blank. *)
Lemma extract_chapters_spec (self self1 : State) (chapters : list Chapter) :
  extract_chapters self = (Ok chapters, self1) ->
  length chapters + removed_blanks self1
  = removed_blanks self + input_unit_count (input_path self)
  /\ extract_frame self self1.
Proof.
  unfold extract_chapters, input_unit_count.
  case_decide as Hpdf; [|case_decide as Hepub].
  - unfold pdf_to_html_chapters.
    destruct (fitz_open (input_path self)) as [doc|e]; [|done].
    pose proof (pdf_pages_from_spec doc 0 []
                  (log_message self (lit "Converting PDF: " ++ input_path self)))
      as (Hc & Hb & Hf).
    destruct (pdf_pages_from 0 doc _) as [chs self'].
    cbn [fst snd] in *. intros [= <- <-]. split.
    + rewrite length_map. cbn [removed_blanks log_message print].
      rewrite Hb, Hc. cbn [app removed_blanks log_message print].
      rewrite length_map. pose proof (numbered_partition doc 0). lia.
    + eapply extract_frame_trans; [apply extract_frame_log|].
      eapply extract_frame_trans; [apply Hf|apply extract_frame_log].
  - unfold extract_epub_chapters.
    destruct (epub_read_epub (input_path self)) as [book|e]; [|done].
    pose proof (epub_items_spec (book_items book) []
                  (log_message self (lit "Reading EPUB: " ++ input_path self)))
      as (Hc & Hb & Hf).
    destruct (foldl epub_item_iter _ (book_items book)) as [chs self'].
    cbn [fst snd] in *. intros [= <- <-]. split.
    + rewrite length_map. cbn [removed_blanks log_message print].
      rewrite Hb, Hc. cbn [app removed_blanks log_message print].
      rewrite length_map. pose proof (items_partition (book_items book)). lia.
    + eapply extract_frame_trans; [apply extract_frame_log|].
      eapply extract_frame_trans; [apply Hf|apply extract_frame_log].
  - done.
Qed.

(** A run of [process] that returns has extracted, deduplicated and written
    the survivors; the later steps leave the counters alone. *)
Lemma process_returns (self final : State) (output_path : str) :
  process self = (Ok output_path, final) ->
  exists chapters self1 metadata,
    extract_chapters
      (log_message self (lit "Starting normalization of: " ++ input_path self))
    = (Ok chapters, self1)
    /\ removed_blanks final
       = removed_blanks (deduplicate_chapters self1 chapters).2
    /\ removed_duplicates final
       = removed_duplicates (deduplicate_chapters self1 chapters).2
    /\ WriteEpub output_path
         (build_epub (deduplicate_chapters self1 chapters).1 metadata)
       ∈ fs final.
Proof.
  unfold process.
  destruct (extract_chapters _) as [[chapters|e] self1]; [|done].
  destruct (deduplicate_chapters self1 chapters) as [survivors self2] eqn:Hd.
  destruct (extract_metadata self2 (input_path self2)) as [metadata self3] eqn:Hm.
  destruct (makedirs_error _) as [e|]; [done|].
  destruct (write_epub_error _) as [e|]; [done|].
  unfold generate_report. destruct (open_write_error _) as [e|]; [done|].
  intros [= <- <-]. exists chapters, self1, metadata.
  split; [done|]. rewrite Hd.
  cbn [fst snd removed_blanks removed_duplicates fs print fs_add log_message].
  assert (removed_blanks self3 = removed_blanks self2
          /\ removed_duplicates self3 = removed_duplicates self2) as [-> ->].
  { unfold extract_metadata in Hm.
    destruct (endswith _ _); [destruct (epub_read_epub _)|];
      injection Hm as <- <-; done. }
  split; [done|]. split; [done|].
  set_solver.
Qed.

(** C1 (as amended): blank units are dropped, and counted, by the extraction
    step: of the pages of a PDF, and of the content documents of an EPUB, the
    chapters passed on are exactly those of the units whose extracted text
    [is_blank_page] does not flag, in order, and the blank counter grows by
    the number of flagged ones.  So no chapter that an EPUB passes to
    [deduplicate_chapters] has a blank text, and [deduplicate_chapters] itself
    counts no blanks. *)
Theorem blank_units_are_dropped_at_extraction :
  (forall (pages : list Page) (page_num : nat) (chapters : list (str * str))
          (self : State),
      (pdf_pages_from page_num pages (chapters, self)).1
      = chapters
        ++ map pdf_chapter
             (base.filter (fun np => page_blank np.2 = false)
                (numbered page_num pages))
      /\ removed_blanks (pdf_pages_from page_num pages (chapters, self)).2
         = removed_blanks self
           + length (base.filter (fun p => page_blank p = true) pages))
  /\ (forall (items : list Item) (chapters : list (str * str * str))
             (self : State),
         (foldl epub_item_iter (chapters, self) items).1
         = chapters
           ++ map epub_chapter
                (base.filter
                   (fun i => is_xhtml i = true /\ item_blank i = false) items)
         /\ removed_blanks (foldl epub_item_iter (chapters, self) items).2
            = removed_blanks self
              + length
                  (base.filter
                     (fun i => is_xhtml i = true /\ item_blank i = true) items))
  /\ (forall (items : list Item) (self : State),
         Forall (fun c => is_blank_page (chapter_text c) [] = false)
           (map of_3tuple (foldl epub_item_iter ([], self) items).1))
  /\ (forall (self : State) (chapters : list Chapter),
         removed_blanks (deduplicate_chapters self chapters).2
         = removed_blanks self).
Proof.
  split; [|split; [|split]].
  - intros pages page_num chapters self.
    destruct (pdf_pages_from_spec pages page_num chapters self) as (? & ? & _).
    done.
  - intros items chapters self.
    destruct (epub_items_spec items chapters self) as (? & ? & _). done.
  - intros items self.
    destruct (epub_items_spec items [] self) as (-> & _). cbn [app].
    rewrite Forall_map, Forall_map. apply Forall_forall.
    intros i [[_ Hblank] _]%list_elem_of_filter.
    unfold item_blank, item_text in Hblank. cbn. exact Hblank.
  - apply deduplicate_chapters_blanks.
Qed.

(** C2: after a run of the pipeline on a fresh normalizer, the blanks
    removed, the duplicates removed and the survivors (the chapters that
    deduplication returns, which are those of the book written) add up to the
    units of the input: the pages of the PDF, or the content documents of the
    EPUB. *)
Theorem counters_account_for_every_unit (input output : str)
    (out err : list str) (files : list FsEvent)
    (output_path : str) (final : State) :
  process (new_normalizer input output out err files) = (Ok output_path, final) ->
  exists (chapters : list Chapter) (self1 : State) (metadata : Metadata),
    extract_chapters
      (log_message (new_normalizer input output out err files)
         (lit "Starting normalization of: " ++ input))
    = (Ok chapters, self1)
    /\ WriteEpub output_path
         (build_epub (deduplicate_chapters self1 chapters).1 metadata)
       ∈ fs final
    /\ length (eb_chapters
                 (build_epub (deduplicate_chapters self1 chapters).1 metadata))
       = length (deduplicate_chapters self1 chapters).1
    /\ removed_blanks final + removed_duplicates final
       + length (deduplicate_chapters self1 chapters).1
       = input_unit_count input.
Proof.
  intros Hrun.
  destruct (process_returns _ _ _ Hrun)
    as (chapters & self1 & metadata & Hx & Hb & Hd & Hw).
  exists chapters, self1, metadata.
  split; [done|]. split; [done|]. split; [apply length_imap|].
  apply extract_chapters_spec in Hx as [Hcount (_ & _ & Hdup & _)].
  destruct (deduplicate_chapters_spec self1 chapters) as (_ & Hsum & Hframe).
  destruct Hframe as (_ & _ & Hblank & _).
  cbn [removed_blanks removed_duplicates input_path log_message print
         new_normalizer] in Hcount, Hdup.
  lia.
Qed.

(** C8: an input whose extension, lower-cased, is neither [.pdf] nor [.epub]
    is rejected at once: [process] raises [ValueError] having done nothing but
    log its first message, the file system is as it was (no directory, no
    book, no report), and [main] exits with status 1. *)
Theorem unsupported_format_is_rejected (script input output : str)
    (rest out err : list str) (files : list FsEvent) :
  str_lower (path_suffix input) <> lit ".pdf" ->
  str_lower (path_suffix input) <> lit ".epub" ->
  process (new_normalizer input output out err files)
  = (Raise (ValueError (lit "Unsupported file format: "
                          ++ str_lower (path_suffix input))),
     log_message (new_normalizer input output out err files)
       (lit "Starting normalization of: " ++ input))
  /\ fs (process (new_normalizer input output out err files)).2 = files
  /\ (main (script :: input :: rest) out err files).1 = 1%Z
  /\ w_fs (main (script :: input :: rest) out err files).2 = files.
Proof.
  intros Hpdf Hepub.
  assert (Hp : forall output,
    process (new_normalizer input output out err files)
    = (Raise (ValueError (lit "Unsupported file format: "
                            ++ str_lower (path_suffix input))),
       log_message (new_normalizer input output out err files)
         (lit "Starting normalization of: " ++ input))).
  { intros o. unfold process, extract_chapters.
    cbn [input_path log_message print new_normalizer].
    case_decide; [done|]. case_decide; [done|]. done. }
  split; [apply Hp|]. split; [by rewrite Hp|].
  unfold main. destruct (path_exists input); cbn [negb]; [|done].
  rewrite Hp. done.
Qed.

End Pipeline.

(** ** Words and whitespace *)

Lemma segments_not_nil (s : str) : segments s <> [].
Proof.
  destruct s as [|c s]; cbn; [done|].
  destruct (isspace c); [done|]. by destruct (segments s).
Qed.

Lemma filter_nonempty_nil (l : list str) :
  base.filter nonempty ([] :: l) = base.filter nonempty l.
Proof. rewrite filter_cons. case_decide as Hn; [by destruct Hn|done]. Qed.

Lemma filter_nonempty_cons (c : N) (w : str) (l : list str) :
  base.filter nonempty ((c :: w) :: l) = (c :: w) :: base.filter nonempty l.
Proof. rewrite filter_cons. case_decide as Hn; [done|by destruct Hn]. Qed.





















Lemma segments_no_whitespace (u : str) : no_whitespace u -> segments u = [u].
Proof.
  induction 1 as [|c u Hc _ IH]; [done|]. cbn [segments]. by rewrite Hc, IH.
Qed.

Lemma segments_app_space (u v : str) (w : N) :
  no_whitespace u -> isspace w = true ->
  segments (u ++ w :: v) = u :: segments v.
Proof.
  intros Hu Hw. induction Hu as [|c u Hc _ IH]; cbn [app segments].
  - by rewrite Hw.
  - by rewrite Hc, IH.
Qed.

Lemma split_at_space (s : str) :
  no_whitespace s
  \/ exists u w v, s = u ++ w :: v /\ no_whitespace u /\ isspace w = true.
Proof.
  induction s as [|c s IH].
  - left. constructor.
  - destruct (isspace c) eqn:Hc.
    + right. exists [], c, s. repeat split; [constructor|done].
    + destruct IH as [Hs|(u & w & v & -> & Hu & Hw)].
      * left. by constructor.
      * right. exists (c :: u), w, v. repeat split; [by constructor|done].
Qed.

(** ** Fingerprint and similarity: properties *)

Section Fingerprint.
Context `{!Externals}.

Lemma segments_lower (s : str) :
  lower_keeps_whitespace ->
  segments (str_lower s) = map str_lower (segments s).
Proof.
  intros (_ & Hsplit & Hclean).
  remember (length s) as n eqn:Hn. revert s Hn.
  induction n as [n IH] using lt_wf_ind. intros s ->.
  destruct (split_at_space s) as [Hs|(u & w & v & -> & Hu & Hw)].
  - rewrite (segments_no_whitespace s Hs). cbn [map].
    apply segments_no_whitespace. by apply Hclean.
  - rewrite Hsplit by done.
    rewrite !segments_app_space by auto. cbn [map]. f_equal.
    apply (IH (length v)); [|done]. rewrite length_app. cbn [length]. lia.
Qed.

Lemma filter_nonempty_lower (segs : list str) :
  str_lower [] = [] ->
  base.filter nonempty (map str_lower segs)
  = base.filter nonempty (map str_lower (base.filter nonempty segs)).
Proof.
  intros Hnil. induction segs as [|seg segs IH]; [done|].
  destruct seg as [|c w]; cbn [map].
  - by rewrite Hnil, !filter_nonempty_nil.
  - rewrite filter_nonempty_cons. cbn [map]. rewrite !filter_cons, IH. done.
Qed.



(** Texts with the same words differ in the style of their whitespace only. *)
Lemma same_words_whitespace_only (a b : str) :
  words a = words b -> same_words_up_to_case a b.
Proof.
  unfold same_words_up_to_case. intros ->.
  induction (words b); by constructor.
Qed.

(** Texts with the same lower-casing differ in letter case only. *)
Lemma same_lower_case_only (a b : str) :
  lower_keeps_whitespace -> str_lower a = str_lower b ->
  base.filter nonempty (map str_lower (words a))
  = base.filter nonempty (map str_lower (words b)).
Proof.
  intros Hlower Hab. unfold words.
  rewrite <- !filter_nonempty_lower by apply Hlower.
  by rewrite <- !segments_lower, Hab.
Qed.


(** C6: on non-empty texts, [are_similar] with the default threshold is true
    exactly when the ratio computed by [fuzz.ratio] is at least 95.0; a ratio
    of exactly 95.0 counts as similar, and a ratio of 94.999 (the binary64
    number that this literal denotes) does not. *)
Theorem similarity_threshold_boundary (text1 text2 : str) :
  text1 <> [] -> text2 <> [] ->
  (are_similar text1 text2 default_threshold = true
   <-> PrimFloat.leb 95 (fuzz_ratio text1 text2) = true)
  /\ (fuzz_ratio text1 text2 = 95%float ->
      are_similar text1 text2 default_threshold = true)
  /\ (fuzz_ratio text1 text2 = 0x1.7bfef9db22d0ep+6%float ->
      are_similar text1 text2 default_threshold = false).
Proof.
  intros H1 H2. unfold are_similar, default_threshold.
  destruct text1 as [|c1 text1]; [done|].
  destruct text2 as [|c2 text2]; [done|].
  cbn [str_empty orb]. split; [done|].
  split; intros ->; reflexivity.
Qed.

End Fingerprint.

(** ** The sample environment: runs, witnesses and counterexamples *)

Section SampleRuns.
Import Sample.





(** The scenario of the specification, as a PDF of four pages: one blank page
    and one duplicate are removed, two chapters are written. *)
Example scenario_pipeline :
  let run := process (fresh "book.pdf") in
  run.1 = Ok (lit "output/cleaned-book.epub")
  /\ removed_blanks run.2 = 1
  /\ removed_duplicates run.2 = 1
  /\ input_unit_count (lit "book.pdf") = 4.
Proof. vm_compute. done. Qed.

(** The same four units given to [deduplicate_chapters] directly: the
    duplicate goes, the blank unit stays. *)
Example scenario_deduplication_alone :
  (deduplicate_chapters (fresh "book.pdf") [unit_A; unit_B; unit_C; unit_D]).1
  = [unit_A; unit_B; unit_D].
Proof. vm_compute. done. Qed.

(** A text of 20 letters, one that differs from it in its last letter (their
    ratio is exactly 95.0), and that one again: the two identical units are
    both dropped. *)
Example near_duplicate_pair_without_survivor :
  let x := Chapter3 (lit "X") (lit "<p>x</p>") (lit "aaaaaaaaaaaaaaaaaaaa") in
  let a := Chapter3 (lit "A") (lit "<p>a</p>") (lit "aaaaaaaaaaaaaaaaaaab") in
  let a' := Chapter3 (lit "A2") (lit "<p>a</p>") (lit "aaaaaaaaaaaaaaaaaaab") in
  fuzz_ratio (lit "aaaaaaaaaaaaaaaaaaab") (lit "aaaaaaaaaaaaaaaaaaaa") = 95%float
  /\ (deduplicate_chapters (fresh "book.pdf") [x; a; a']).1 = [x].
Proof. vm_compute. done. Qed.


(** C6 at two non-empty texts whose ratio is exactly 95.0. *)
Lemma similarity_threshold_boundary_sample :
  (are_similar (lit "aaaaaaaaaaaaaaaaaaaa") (lit "aaaaaaaaaaaaaaaaaaab")
     default_threshold = true
   <-> PrimFloat.leb 95
         (fuzz_ratio (lit "aaaaaaaaaaaaaaaaaaaa") (lit "aaaaaaaaaaaaaaaaaaab"))
       = true)
  /\ (fuzz_ratio (lit "aaaaaaaaaaaaaaaaaaaa") (lit "aaaaaaaaaaaaaaaaaaab")
      = 95%float ->
      are_similar (lit "aaaaaaaaaaaaaaaaaaaa") (lit "aaaaaaaaaaaaaaaaaaab")
        default_threshold = true)
  /\ (fuzz_ratio (lit "aaaaaaaaaaaaaaaaaaaa") (lit "aaaaaaaaaaaaaaaaaaab")
      = 0x1.7bfef9db22d0ep+6%float ->
      are_similar (lit "aaaaaaaaaaaaaaaaaaaa") (lit "aaaaaaaaaaaaaaaaaaab")
        default_threshold = false).
Proof.
  apply (similarity_threshold_boundary
           (lit "aaaaaaaaaaaaaaaaaaaa") (lit "aaaaaaaaaaaaaaaaaaab"));
    vm_compute; discriminate.
Defined.


(** C2 at the sample PDF: the run returns, so the theorem applies. *)
Lemma counters_account_for_every_unit_sample :
  exists (chapters : list Chapter) (self1 : State) (metadata : Metadata),
    extract_chapters
      (log_message (fresh "book.pdf")
         (lit "Starting normalization of: " ++ lit "book.pdf"))
    = (Ok chapters, self1)
    /\ WriteEpub (lit "output/cleaned-book.epub")
         (build_epub (deduplicate_chapters self1 chapters).1 metadata)
       ∈ fs (process (fresh "book.pdf")).2
    /\ length (eb_chapters
                 (build_epub (deduplicate_chapters self1 chapters).1 metadata))
       = length (deduplicate_chapters self1 chapters).1
    /\ removed_blanks (process (fresh "book.pdf")).2
       + removed_duplicates (process (fresh "book.pdf")).2
       + length (deduplicate_chapters self1 chapters).1
       = input_unit_count (lit "book.pdf").
Proof.
  apply (counters_account_for_every_unit
           (lit "book.pdf") (lit "output") [] [] []).
  vm_compute. reflexivity.
Defined.

(** C8 at the input [notes.txt]. *)
Lemma unsupported_format_is_rejected_sample :
  process (new_normalizer (lit "notes.txt") (lit "output") [] [] [])
  = (Raise (ValueError (lit "Unsupported file format: "
                          ++ str_lower (path_suffix (lit "notes.txt")))),
     log_message (new_normalizer (lit "notes.txt") (lit "output") [] [] [])
       (lit "Starting normalization of: " ++ lit "notes.txt"))
  /\ fs (process (new_normalizer (lit "notes.txt") (lit "output") [] [] [])).2
     = []
  /\ (main (lit "normalize_epub.py" :: lit "notes.txt" :: []) [] [] []).1 = 1%Z
  /\ w_fs (main (lit "normalize_epub.py" :: lit "notes.txt" :: []) [] [] []).2
     = [].
Proof.
  apply (unsupported_format_is_rejected
           (lit "normalize_epub.py") (lit "notes.txt") (lit "output") [] [] [] []);
    vm_compute; discriminate.
Defined.

End SampleRuns.

(** C1, as stated, fails: a unit that [is_blank_page] flags, given to
    [deduplicate_chapters], survives and is not counted as blank, whatever
    the library functions are. *)
Lemma blank_unit_survives_deduplication :
  is_blank_page (lit "   ") [] = true
  /\ forall (E : Externals) (self : State),
       (deduplicate_chapters self [Sample.unit_B]).1 = [Sample.unit_B]
       /\ removed_blanks (deduplicate_chapters self [Sample.unit_B]).2
          = removed_blanks self.
Proof.
  split; [reflexivity|]. intros E self. split.
  - destruct (deduplicate_chapters_head self Sample.unit_B []) as [rest Hrest].
    destruct (deduplicate_chapters_spec self [Sample.unit_B]) as (Hsub & _).
    rewrite Hrest in Hsub |- *. apply sublist_length in Hsub. cbn in Hsub.
    destruct rest; [done|cbn in Hsub; lia].
  - apply deduplicate_chapters_blanks.
Qed.


(** ** Deduplication: what the survivors are *)

Section Survivors.
Context `{!Externals}.

Lemma locals_of_nil : locals_of [] = dedup_init.
Proof. reflexivity. Qed.

Lemma keep_locals_of (kept : list Chapter) (c : Chapter) :
  keep (locals_of kept) c = locals_of (kept ++ [c]).
Proof.
  unfold keep, locals_of. cbn [unique_chapters seen_hashes seen_texts].
  rewrite !map_app. cbn [map]. f_equal.
  rewrite list_to_set_app_L. cbn [list_to_set foldr].
  by rewrite (right_id_L ∅ (∪)).
Qed.

Lemma foldl_locals_of (chapters kept : list Chapter) :
  foldl dedup_locals_iter (locals_of kept) chapters
  = locals_of (kept ++ kept_after kept chapters).
Proof.
  revert kept. induction chapters as [|c cs IH]; intros kept.
  - cbn. by rewrite app_nil_r.
  - cbn [foldl kept_after]. unfold dedup_locals_iter at 2.
    destruct (is_duplicate (locals_of kept) (chapter_text c)).
    + apply IH.
    + rewrite keep_locals_of, IH. by rewrite <- app_assoc.
Qed.

Lemma survivors_kept_after (self : State) (chapters : list Chapter) :
  (deduplicate_chapters self chapters).1 = kept_after [] chapters.
Proof.
  rewrite deduplicate_chapters_fold, <- locals_of_nil, foldl_locals_of. done.
Qed.

Lemma similar_to_seen_exists (text : str) (kept : list Chapter) :
  similar_to_seen text (map chapter_text kept) = true
  <-> exists s, s ∈ kept
        /\ are_similar text (chapter_text s) 95%float = true.
Proof.
  induction kept as [|k kept IH]; cbn [map similar_to_seen].
  - split; [done|]. intros (s & Hs & _). by apply elem_of_nil in Hs.
  - destruct (are_similar text (chapter_text k) 95%float) eqn:Hk.
    + split; [|done]. intros _. exists k. split; [left|done].
    + rewrite IH. split.
      * intros (s & Hs & Hsim). exists s. split; [by right|done].
      * intros (s & Hs & Hsim). apply elem_of_cons in Hs as [->|Hs];
          [congruence|eauto].
Qed.

Lemma is_duplicate_locals_of (kept : list Chapter) (c : Chapter) :
  is_duplicate (locals_of kept) (chapter_text c) = true
  <-> exists s, s ∈ kept /\ duplicates c s.
Proof.
  unfold is_duplicate, duplicates. cbn [locals_of seen_hashes seen_texts].
  rewrite orb_true_iff, bool_decide_eq_true, similar_to_seen_exists.
  rewrite elem_of_list_to_set, list_elem_of_fmap. fold (chapter_hash c).
  split.
  - intros [(s & Hh & Hs)|(s & Hs & Hsim)]; exists s; eauto.
  - intros (s & Hs & [Hh|Hsim]); [left|right]; eauto.
Qed.

Lemma is_duplicate_locals_of_false (kept : list Chapter) (c : Chapter) :
  is_duplicate (locals_of kept) (chapter_text c) = false
  <-> forall s, s ∈ kept -> ~ duplicates c s.
Proof.
  rewrite <- not_true_iff_false, is_duplicate_locals_of. split.
  - intros Hno s Hs Hdup. apply Hno. eauto.
  - intros Hno (s & Hs & Hdup). by apply (Hno s).
Qed.

Lemma kept_after_snoc (chapters kept : list Chapter) (c : Chapter) :
  kept_after kept (chapters ++ [c])
  = kept_after kept chapters
    ++ (if is_duplicate (locals_of (kept ++ kept_after kept chapters))
             (chapter_text c)
        then [] else [c]).
Proof.
  revert kept. induction chapters as [|d cs IH]; intros kept.
  - cbn [app kept_after]. rewrite app_nil_r.
    by destruct (is_duplicate (locals_of kept) (chapter_text c)).
  - cbn [app kept_after].
    destruct (is_duplicate (locals_of kept) (chapter_text d)).
    + apply IH.
    + rewrite IH. cbn [app]. by rewrite <- app_assoc.
Qed.

Lemma kept_after_app (l1 l2 kept : list Chapter) :
  kept_after kept (l1 ++ l2)
  = kept_after kept l1 ++ kept_after (kept ++ kept_after kept l1) l2.
Proof.
  revert kept. induction l1 as [|d cs IH]; intros kept.
  - cbn. by rewrite app_nil_r.
  - cbn [app kept_after].
    destruct (is_duplicate (locals_of kept) (chapter_text d)).
    + apply IH.
    + rewrite IH. cbn [app]. by rewrite <- !app_assoc.
Qed.

Lemma kept_after_unlike (chapters kept : list Chapter) :
  unlike_earlier kept (kept_after kept chapters).
Proof.
  revert kept. induction chapters as [|c cs IH]; intros kept; [done|].
  cbn [kept_after].
  destruct (is_duplicate (locals_of kept) (chapter_text c)) eqn:Hdup.
  - apply IH.
  - cbn [unlike_earlier]. split; [|apply IH].
    by apply is_duplicate_locals_of_false.
Qed.

Lemma unlike_kept_after (l kept : list Chapter) :
  unlike_earlier kept l -> kept_after kept l = l.
Proof.
  revert kept. induction l as [|c l IH]; intros kept; [done|].
  cbn [unlike_earlier kept_after]. intros [Hc Hl].
  apply is_duplicate_locals_of_false in Hc. rewrite Hc. f_equal. by apply IH.
Qed.

Lemma unlike_earlier_lookup (l kept : list Chapter) (i j : nat) (a b : Chapter) :
  unlike_earlier kept l ->
  i < j -> length kept <= j ->
  (kept ++ l) !! i = Some a -> (kept ++ l) !! j = Some b ->
  ~ duplicates b a.
Proof.
  revert kept. induction l as [|c l IH]; intros kept Hun Hij Hj Ha Hb.
  - rewrite app_nil_r in Hb. apply lookup_lt_Some in Hb. lia.
  - destruct Hun as [Hc Hl].
    destruct (decide (j = length kept)) as [->|Hne].
    + rewrite lookup_app_r, Nat.sub_diag in Hb by done.
      injection Hb as <-. rewrite lookup_app_l in Ha by done.
      apply Hc. by eapply list_elem_of_lookup_2.
    + apply (IH (kept ++ [c])); try done.
      * rewrite length_app. cbn. lia.
      * by rewrite <- app_assoc.
      * by rewrite <- app_assoc.
Qed.

Lemma unlike_earlier_hashes (l kept : list Chapter) :
  unlike_earlier kept l ->
  NoDup (map chapter_hash kept) -> NoDup (map chapter_hash (kept ++ l)).
Proof.
  revert kept. induction l as [|c l IH]; intros kept Hun Hk.
  - by rewrite app_nil_r.
  - destruct Hun as [Hc Hl].
    replace (kept ++ c :: l) with ((kept ++ [c]) ++ l) by by rewrite <- app_assoc.
    apply IH; [done|]. rewrite map_app. cbn [map].
    apply NoDup_app. split; [done|]. split; [|apply NoDup_singleton].
    intros h Hh Hin. apply list_elem_of_singleton in Hin as ->.
    apply list_elem_of_fmap in Hh as (s & Hs & Hin).
    apply (Hc s Hin). by left.
Qed.

End Survivors.

Section SurvivorProperties.
Context `{!Externals}.

Lemma kept_after_sublist (chapters kept : list Chapter) :
  sublist (kept_after kept chapters) chapters.
Proof.
  revert kept. induction chapters as [|c cs IH]; intros kept; [constructor|].
  cbn [kept_after]. destruct (is_duplicate _ _).
  - apply sublist_cons_r. left. apply IH.
  - constructor. apply IH.
Qed.

(** X1: deduplication is idempotent: run on its own survivors, by any
    normalizer, it returns them unchanged and counts no duplicate. *)
Theorem deduplication_is_idempotent (self self' : State)
    (chapters : list Chapter) :
  (deduplicate_chapters self' (deduplicate_chapters self chapters).1).1
  = (deduplicate_chapters self chapters).1
  /\ removed_duplicates
       (deduplicate_chapters self' (deduplicate_chapters self chapters).1).2
     = removed_duplicates self'.
Proof.
  assert (Hsame :
    (deduplicate_chapters self' (deduplicate_chapters self chapters).1).1
    = (deduplicate_chapters self chapters).1).
  { rewrite !survivors_kept_after.
    apply unlike_kept_after, kept_after_unlike. }
  split; [done|].
  destruct (deduplicate_chapters_spec self'
              (deduplicate_chapters self chapters).1) as (_ & Hcount & _).
  rewrite Hsame in Hcount. lia.
Qed.

(** X2: no survivor is a duplicate of an earlier survivor: their hashes
    differ, and the later text is not similar to the earlier one. *)
Theorem no_survivor_duplicates_an_earlier_one (self : State)
    (chapters : list Chapter) (i j : nat) (a b : Chapter) :
  i < j ->
  (deduplicate_chapters self chapters).1 !! i = Some a ->
  (deduplicate_chapters self chapters).1 !! j = Some b ->
  chapter_hash b <> chapter_hash a
  /\ are_similar (chapter_text b) (chapter_text a) 95%float = false.
Proof.
  rewrite survivors_kept_after. intros Hij Ha Hb.
  pose proof (unlike_earlier_lookup (kept_after [] chapters) [] i j a b
                (kept_after_unlike chapters []) Hij) as Hno.
  cbn [app length] in Hno. specialize (Hno ltac:(lia) Ha Hb).
  unfold duplicates in Hno. split.
  - intros Hh. apply Hno. by left.
  - apply not_true_iff_false. intros Hs. apply Hno. by right.
Qed.

(** X3: a unit appended to the input is dropped when it duplicates a survivor
    of the input before it, and is appended to the survivors otherwise. *)
Theorem next_unit_is_kept_unless_duplicate (self : State)
    (chapters : list Chapter) (c : Chapter) :
  ((exists s, s ∈ (deduplicate_chapters self chapters).1 /\ duplicates c s) ->
   (deduplicate_chapters self (chapters ++ [c])).1
   = (deduplicate_chapters self chapters).1)
  /\ ((forall s, s ∈ (deduplicate_chapters self chapters).1 -> ~ duplicates c s) ->
      (deduplicate_chapters self (chapters ++ [c])).1
      = (deduplicate_chapters self chapters).1 ++ [c]).
Proof.
  rewrite !survivors_kept_after, kept_after_snoc. cbn [app]. split.
  - intros Hdup%is_duplicate_locals_of. rewrite Hdup. apply app_nil_r.
  - intros Hno%is_duplicate_locals_of_false. by rewrite Hno.
Qed.

(** X4: deduplication works online: the survivors of a prefix of the input
    are a prefix of the survivors of the whole, and what follows them comes
    from the rest of the input, in order. *)
Theorem survivors_of_a_prefix (self : State) (l1 l2 : list Chapter) :
  exists rest,
    (deduplicate_chapters self (l1 ++ l2)).1
    = (deduplicate_chapters self l1).1 ++ rest
    /\ sublist rest l2.
Proof.
  rewrite !survivors_kept_after, kept_after_app.
  eexists. split; [done|]. apply kept_after_sublist.
Qed.

(** X5: the three locals of the loop stay aligned: after any input,
    [seen_texts] holds the texts of the chapters kept, in order, and
    [seen_hashes] their hashes, one per chapter kept. *)
Theorem loop_locals_stay_aligned (self : State) (chapters : list Chapter) :
  let loc := (foldl dedup_iter (dedup_init, self) chapters).1 in
  seen_texts loc = map chapter_text (unique_chapters loc)
  /\ seen_hashes loc = list_to_set (map chapter_hash (unique_chapters loc))
  /\ size (seen_hashes loc) = length (unique_chapters loc)
  /\ length (seen_texts loc) = length (unique_chapters loc).
Proof.
  cbn zeta. rewrite dedup_fold_locals, <- locals_of_nil, foldl_locals_of.
  cbn [app locals_of seen_texts seen_hashes unique_chapters].
  split; [done|]. split; [done|]. split; [|by rewrite length_map].
  rewrite size_list_to_set, length_map; [done|].
  apply (unlike_earlier_hashes (kept_after [] chapters) []);
    [apply kept_after_unlike|constructor].
Qed.

Lemma duplicates_empty_text (c s : Chapter) :
  chapter_text c = [] \/ chapter_text s = [] ->
  duplicates c s <-> chapter_hash c = chapter_hash s.
Proof.
  intros Hempty. unfold duplicates, are_similar. split; [|by left].
  intros [Hh|Hsim]; [done|]. exfalso.
  destruct Hempty as [He|He]; rewrite He in Hsim; cbn in Hsim; [done|].
  by rewrite orb_true_r in Hsim.
Qed.

(** X6: an empty text is similar to nothing: a unit with an empty text,
    appended to the input, is kept exactly when no survivor before it has
    its hash. *)
Theorem empty_text_is_dropped_by_hash_only (self : State)
    (chapters : list Chapter) (c : Chapter) :
  chapter_text c = [] ->
  (deduplicate_chapters self (chapters ++ [c])).1
  = (deduplicate_chapters self chapters).1 ++ [c]
  <-> forall s, s ∈ (deduplicate_chapters self chapters).1 ->
        chapter_hash s <> chapter_hash c.
Proof.
  intros Hempty. rewrite !survivors_kept_after, kept_after_snoc. cbn [app].
  destruct (is_duplicate _ _) eqn:Hdup.
  - apply is_duplicate_locals_of in Hdup as (s & Hs & Hdup).
    apply duplicates_empty_text in Hdup; [|by left]. split.
    + intros Heq. apply (f_equal length) in Heq.
      rewrite !length_app in Heq. cbn in Heq. lia.
    + intros Hno. by destruct (Hno s Hs).
  - split; [|done]. intros _ s Hs Hh.
    apply (proj1 (is_duplicate_locals_of_false _ _) Hdup s Hs). by left.
Qed.

Lemma is_duplicate_map (f : Chapter -> Chapter) (kept : list Chapter) (t : str) :
  (forall c, chapter_text (f c) = chapter_text c) ->
  is_duplicate (locals_of (map f kept)) t = is_duplicate (locals_of kept) t.
Proof.
  intros Hf. unfold is_duplicate, locals_of. cbn [seen_hashes seen_texts].
  rewrite !map_map.
  rewrite (map_ext (fun c => chapter_text (f c)) chapter_text) by done.
  rewrite (map_ext (fun c => chapter_hash (f c)) chapter_hash); [done|].
  intros c. unfold chapter_hash. by rewrite Hf.
Qed.

Lemma kept_after_map (f : Chapter -> Chapter) (chapters kept : list Chapter) :
  (forall c, chapter_text (f c) = chapter_text c) ->
  kept_after (map f kept) (map f chapters) = map f (kept_after kept chapters).
Proof.
  intros Hf. revert kept.
  induction chapters as [|c cs IH]; intros kept; [done|].
  cbn [map kept_after]. rewrite Hf, is_duplicate_map by done.
  destruct (is_duplicate _ _); [apply IH|].
  cbn [map]. f_equal. rewrite <- IH, map_app. done.
Qed.

(** X7: deduplication reads the text of a chapter and nothing else: a change
    of the chapters that keeps their texts (other titles, other markup, a
    2-tuple made a 3-tuple) changes the survivors in the same way, and the
    count of duplicates not at all. *)
Theorem deduplication_reads_text_only (self : State) (f : Chapter -> Chapter)
    (chapters : list Chapter) :
  (forall c, chapter_text (f c) = chapter_text c) ->
  (deduplicate_chapters self (map f chapters)).1
  = map f (deduplicate_chapters self chapters).1
  /\ removed_duplicates (deduplicate_chapters self (map f chapters)).2
     = removed_duplicates (deduplicate_chapters self chapters).2.
Proof.
  intros Hf.
  assert (Hsame : (deduplicate_chapters self (map f chapters)).1
                  = map f (deduplicate_chapters self chapters).1).
  { rewrite !survivors_kept_after. by apply (kept_after_map f chapters []). }
  split; [done|].
  destruct (deduplicate_chapters_spec self (map f chapters)) as (_ & H1 & _).
  destruct (deduplicate_chapters_spec self chapters) as (_ & H2 & _).
  rewrite Hsame in H1. rewrite !length_map in H1. lia.
Qed.

End SurvivorProperties.

Section DeduplicationLog.
Context `{!Externals}.

Lemma dedup_iter_cases (loc : DedupLocals) (self : State) (c : Chapter) :
  dedup_iter (loc, self) c = (keep loc c, self)
  \/ exists msg,
       startswith (lit "Removed duplicate (") msg = true
       /\ dedup_iter (loc, self) c
          = (loc, log_message (incr_removed_duplicates self) msg).
Proof.
  unfold dedup_iter.
  destruct (chapter_fields_text c) as (title & html & ->).
  case_decide.
  - right. eexists. split; [|done]. reflexivity.
  - destruct (similar_to_seen _ _).
    + right. eexists. split; [|done]. reflexivity.
    + left. done.
Qed.

Lemma dedup_fold_log (chapters : list Chapter) (loc : DedupLocals)
    (self : State) :
  exists msgs,
    log (foldl dedup_iter (loc, self) chapters).2 = log self ++ msgs
    /\ stdout (foldl dedup_iter (loc, self) chapters).2
       = stdout self ++ map (app (lit "[LOG] ")) msgs
    /\ removed_duplicates (foldl dedup_iter (loc, self) chapters).2
       = removed_duplicates self + length msgs
    /\ Forall (fun m => startswith (lit "Removed duplicate (") m = true) msgs.
Proof.
  revert loc self. induction chapters as [|c cs IH]; intros loc self.
  - exists []. cbn. rewrite !app_nil_r. repeat split; [lia|constructor].
  - cbn [foldl].
    destruct (dedup_iter_cases loc self c) as [->|(msg & Hmsg & ->)].
    + apply IH.
    + destruct (IH loc (log_message (incr_removed_duplicates self) msg))
        as (msgs & Hlog & Hout & Hcount & Hshape).
      exists (msg :: msgs). rewrite Hlog, Hout, Hcount.
      cbn [log stdout removed_duplicates log_message print
             incr_removed_duplicates map length].
      rewrite <- !app_assoc. repeat split; [lia|by constructor].
Qed.

(** X8: the log of a deduplication of a non-empty input: one message for
    each duplicate removed, each starting with [Removed duplicate (], then
    the message [Kept n unique chapters] with the number of survivors; every
    message is printed with the prefix [[LOG] ]. *)
Theorem deduplication_logs_every_removal (self : State) (c : Chapter)
    (cs : list Chapter) :
  exists msgs,
    log (deduplicate_chapters self (c :: cs)).2
    = log self ++ msgs
        ++ [kept_message (deduplicate_chapters self (c :: cs)).1]
    /\ stdout (deduplicate_chapters self (c :: cs)).2
       = stdout self
           ++ map (app (lit "[LOG] "))
                (msgs ++ [kept_message (deduplicate_chapters self (c :: cs)).1])
    /\ removed_duplicates (deduplicate_chapters self (c :: cs)).2
       = removed_duplicates self + length msgs
    /\ Forall (fun m => startswith (lit "Removed duplicate (") m = true) msgs.
Proof.
  unfold deduplicate_chapters.
  destruct (dedup_fold_log (c :: cs) dedup_init self)
    as (msgs & Hlog & Hout & Hcount & Hshape).
  destruct (foldl dedup_iter (dedup_init, self) (c :: cs)) as [loc self'].
  cbn [fst snd] in *. exists msgs.
  cbn [log stdout removed_duplicates log_message print].
  rewrite Hlog, Hout, map_app, <- !app_assoc. done.
Qed.

End DeduplicationLog.

(** ** The pipeline: effects and failures *)

Section PipelineEffects.
Context `{!Externals}.

Lemma extract_chapters_frame (self : State) :
  extract_frame self (extract_chapters self).2.
Proof.
  unfold extract_chapters.
  case_decide; [|case_decide; [|apply extract_frame_refl]].
  - unfold pdf_to_html_chapters.
    destruct (fitz_open (input_path self)) as [doc|e];
      [|apply extract_frame_log].
    pose proof (pdf_pages_from_spec doc 0 []
                  (log_message self (lit "Converting PDF: " ++ input_path self)))
      as (_ & _ & Hf).
    destruct (pdf_pages_from 0 doc _) as [chs self']. cbn [fst snd] in *.
    eapply extract_frame_trans; [apply extract_frame_log|].
    eapply extract_frame_trans; [apply Hf|apply extract_frame_log].
  - unfold extract_epub_chapters.
    destruct (epub_read_epub (input_path self)) as [book|e];
      [|apply extract_frame_log].
    pose proof (epub_items_spec (book_items book) []
                  (log_message self (lit "Reading EPUB: " ++ input_path self)))
      as (_ & _ & Hf).
    destruct (foldl epub_item_iter _ (book_items book)) as [chs self'].
    cbn [fst snd] in *.
    eapply extract_frame_trans; [apply extract_frame_log|].
    eapply extract_frame_trans; [apply Hf|apply extract_frame_log].
Qed.

Lemma extract_metadata_frame (self : State) (path : str) :
  input_path (extract_metadata self path).2 = input_path self
  /\ output_dir (extract_metadata self path).2 = output_dir self
  /\ removed_blanks (extract_metadata self path).2 = removed_blanks self
  /\ removed_duplicates (extract_metadata self path).2 = removed_duplicates self
  /\ stderr (extract_metadata self path).2 = stderr self
  /\ fs (extract_metadata self path).2 = fs self.
Proof.
  unfold extract_metadata.
  destruct (endswith _ _); [destruct (epub_read_epub _)|]; done.
Qed.

(** The state in which [process] starts to write: after extraction,
    deduplication and metadata, the file system, the error output and the
    paths are as they were. *)
Lemma process_before_writing (self self1 : State) (chapters : list Chapter) :
  extract_chapters
    (log_message self (lit "Starting normalization of: " ++ input_path self))
  = (Ok chapters, self1) ->
  let self2 := (deduplicate_chapters self1 chapters).2 in
  let self3 := (extract_metadata self2 (input_path self2)).2 in
  output_dir self3 = output_dir self
  /\ input_path self3 = input_path self
  /\ stderr self3 = stderr self
  /\ fs self3 = fs self.
Proof.
  intros Hx self2 self3.
  pose proof (extract_chapters_frame
                (log_message self
                   (lit "Starting normalization of: " ++ input_path self)))
    as (Hi1 & Ho1 & _ & He1 & Hf1).
  rewrite Hx in Hi1, Ho1, He1, Hf1. cbn [snd] in Hi1, Ho1, He1, Hf1.
  destruct (deduplicate_chapters_spec self1 chapters)
    as (_ & _ & Hi2 & Ho2 & _ & He2 & Hf2).
  destruct (extract_metadata_frame self2 (input_path self2))
    as (Hi3 & Ho3 & _ & _ & He3 & Hf3).
  subst self2 self3.
  cbn [input_path output_dir stderr fs log_message print] in *.
  repeat split; congruence.
Qed.

Lemma foldl_log_lines (msgs : list str) (acc : str) :
  foldl (fun report msg => report ++ lit "  " ++ msg ++ nl) acc msgs
  = acc ++ log_lines msgs.
Proof.
  revert acc. induction msgs as [|m msgs IH]; intros acc.
  - cbn. by rewrite app_nil_r.
  - cbn [foldl]. rewrite IH. unfold log_lines. cbn [map concat].
    by rewrite <- !app_assoc.
Qed.

Lemma report_text_lists_log (self : State) (output_path : str) :
  exists before after,
    report_text self output_path = before ++ log_lines (log self) ++ after.
Proof.
  exists (nl ++ rule 60 ++ nl
          ++ lit "EPUB NORMALIZATION REPORT" ++ nl
          ++ rule 60 ++ nl
          ++ lit "Input File: " ++ input_path self ++ nl
          ++ lit "Output File: " ++ output_path ++ nl
          ++ lit "Date: " ++ now_datetime ++ nl
          ++ nl
          ++ lit "STATISTICS:" ++ nl
          ++ lit "- Blank pages removed: "
          ++ str_of_nat (removed_blanks self) ++ nl
          ++ lit "- Duplicate pages removed: "
          ++ str_of_nat (removed_duplicates self) ++ nl
          ++ lit "- Total pages removed: "
          ++ str_of_nat (removed_blanks self + removed_duplicates self) ++ nl
          ++ nl
          ++ lit "PROCESSING LOG:" ++ nl).
  exists (nl ++ rule 60 ++ nl
          ++ lit "VALIDATION: Run 'epubcheck cleaned-book.epub' to validate"
          ++ nl ++ rule 60 ++ nl).
  unfold report_text. rewrite foldl_log_lines. cbn [app].
  rewrite <- !app_assoc. reflexivity.
Qed.

Lemma process_returns_effects (self final : State) (output_path : str) :
  process self = (Ok output_path, final) ->
  output_path = book_path (output_dir self)
  /\ (exists book,
        fs final
        = fs self
            ++ [MakeDirs (output_dir self);
                WriteEpub output_path book;
                WriteFile (report_path (output_dir self))
                  (report_text final output_path)])
  /\ (exists before after,
        report_text final output_path
        = before ++ log_lines (log final) ++ after)
  /\ stderr final = stderr self.
Proof.
  unfold process.
  destruct (extract_chapters _) as [[chapters|e] self1] eqn:Hx; [|done].
  pose proof (process_before_writing self self1 chapters Hx)
    as (Ho & Hi & He & Hf). cbn zeta in Ho, Hi, He, Hf.
  destruct (deduplicate_chapters self1 chapters) as [survivors self2].
  cbn [snd] in Ho, Hi, He, Hf.
  destruct (extract_metadata self2 (input_path self2)) as [metadata self3].
  cbn [snd] in Ho, Hi, He, Hf.
  cbn [output_dir log_message print fs_add].
  destruct (makedirs_error _) as [e|]; [done|].
  destruct (write_epub_error _) as [e|]; [done|].
  unfold generate_report. cbn [output_dir log_message print fs_add].
  destruct (open_write_error _) as [e|]; [done|].
  intros [= <- <-]. unfold book_path, report_path. rewrite Ho.
  split; [done|]. split; [|split].
  - eexists. cbn [fs log_message print fs_add]. rewrite Hf, <- !app_assoc.
    done.
  - apply report_text_lists_log.
  - cbn [stderr log_message print fs_add]. done.
Qed.

(** X9: a run of [process] that returns has made the output directory,
    written the book under the name [cleaned-book.epub] and then the report
    under the name [normalization-report.txt], in that directory, and nothing
    else; it returns the path of the book.  The report written is the report
    of the final state (its counters and its whole log, one line for each
    message), and the error output is untouched. *)
Theorem process_writes_book_then_report (self final : State)
    (output_path : str) :
  process self = (Ok output_path, final) ->
  output_path = book_path (output_dir self)
  /\ (exists book,
        fs final
        = fs self
            ++ [MakeDirs (output_dir self);
                WriteEpub output_path book;
                WriteFile (report_path (output_dir self))
                  (report_text final output_path)])
  /\ (exists before after,
        report_text final output_path
        = before ++ log_lines (log final) ++ after)
  /\ stderr final = stderr self.
Proof.
  intros Hrun. destruct (process_returns_effects self final output_path Hrun)
    as (Hpath & Hfs & Hreport & Herr).
  split; [exact Hpath|]. split; [exact Hfs|]. split; [exact Hreport|exact Herr].
Qed.

End PipelineEffects.

Section PipelineFailures.
Context `{!Externals}.



Lemma lit_epub_not_pdf : lit ".epub" <> lit ".pdf".
Proof. vm_compute. discriminate. Qed.

(** X11: a document that cannot be opened aborts the run: [process] raises
    the exception of the reader, having logged two messages, counted nothing
    and written nothing; [main] prints the trace and exits with status 1. *)
Theorem unreadable_input_aborts_the_run (script input output : str)
    (rest out err : list str) (files : list FsEvent) (e : Exn) :
  (str_lower (path_suffix input) = lit ".pdf" /\ fitz_open input = Raise e)
  \/ (str_lower (path_suffix input) = lit ".epub"
      /\ epub_read_epub input = Raise e) ->
  (process (new_normalizer input output out err files)).1 = Raise e
  /\ fs (process (new_normalizer input output out err files)).2 = files
  /\ removed_blanks (process (new_normalizer input output out err files)).2 = 0
  /\ removed_duplicates (process (new_normalizer input output out err files)).2
     = 0
  /\ length (log (process (new_normalizer input output out err files)).2) = 2
  /\ (path_exists input = true ->
      (main (script :: input :: rest) out err files).1 = 1%Z
      /\ w_fs (main (script :: input :: rest) out err files).2 = files
      /\ w_stderr (main (script :: input :: rest) out err files).2
         = err ++ [traceback_text e]).
Proof.
  intros Hcase.
  assert (Hp : forall output,
    exists final,
      process (new_normalizer input output out err files) = (Raise e, final)
      /\ fs final = files /\ stderr final = err
      /\ removed_blanks final = 0 /\ removed_duplicates final = 0
      /\ length (log final) = 2).
  { intros o. unfold process, extract_chapters.
    cbn [input_path log_message print new_normalizer].
    destruct Hcase as [[Hext Hopen]|[Hext Hopen]]; rewrite Hext.
    - case_decide; [|done]. unfold pdf_to_html_chapters. rewrite Hopen.
      eexists. split; [done|]. done.
    - case_decide as Hpdf; [by destruct lit_epub_not_pdf|].
      case_decide; [|done]. unfold extract_epub_chapters. rewrite Hopen.
      eexists. split; [done|]. done. }
  destruct (Hp output) as (final & Hrun & Hfs & Herr & Hb & Hd & Hlog).
  rewrite Hrun. cbn [fst snd]. repeat (split; [done|]).
  intros Hexists. unfold main. rewrite Hexists. cbn [negb].
  destruct (Hp (output_dir_of rest))
    as (final' & Hrun' & Hfs' & Herr' & _).
  unfold output_dir_of in Hrun'. rewrite Hrun'.
  cbn [fst snd world_of w_fs w_stderr fs stderr print print_err].
  by rewrite Hfs', Herr'.
Qed.


End PipelineFailures.

Section EmptyBook.
Context `{!Externals}.

Lemma numbered_all_blank (doc : list Page) (page_num : nat) :
  Forall (fun pg => page_blank pg = true) doc ->
  base.filter (fun np : nat * Page => page_blank np.2 = false)
    (numbered page_num doc) = []
  /\ length (base.filter (fun pg => page_blank pg = true) doc) = length doc.
Proof.
  intros Hall. revert page_num.
  induction Hall as [|pg doc Hpg _ IH]; intros page_num; [done|].
  unfold numbered. cbn [length seq zip zip_with]. rewrite !filter_cons.
  cbn [snd]. destruct (IH (S page_num)) as [IH1 IH2]. unfold numbered in IH1.
  case_decide; [congruence|]. case_decide; [|congruence].
  cbn [length]. by rewrite IH1, IH2.
Qed.

Lemma extract_chapters_pdf (self : State) (doc : list Page) :
  str_lower (path_suffix (input_path self)) = lit ".pdf" ->
  fitz_open (input_path self) = Ok doc ->
  exists self1,
    extract_chapters self
    = (Ok (map to_3tuple
             (map pdf_chapter
                (base.filter (fun np : nat * Page => page_blank np.2 = false)
                   (numbered 0 doc)))), self1)
    /\ removed_blanks self1
       = removed_blanks self
         + length (base.filter (fun pg => page_blank pg = true) doc)
    /\ removed_duplicates self1 = removed_duplicates self.
Proof.
  intros Hext Hopen. unfold extract_chapters. rewrite Hext.
  case_decide; [|done]. unfold pdf_to_html_chapters. rewrite Hopen.
  pose proof (pdf_pages_from_spec doc 0 []
                (log_message self (lit "Converting PDF: " ++ input_path self)))
    as (Hc & Hn & Hf).
  destruct (pdf_pages_from 0 doc _) as [chs self'].
  cbn [fst snd app] in Hc, Hn, Hf. subst chs.
  eexists. split; [done|].
  destruct Hf as (_ & _ & Hdup & _).
  cbn [removed_blanks removed_duplicates log_message print] in *. done.
Qed.

(** X13: a PDF whose pages are all blank is no error: a run that returns has
    counted every page as blank, no duplicate, and has written a book
    without chapters. *)
Theorem all_blank_document_gives_empty_book (input output : str)
    (out err : list str) (files : list FsEvent) (doc : list Page)
    (output_path : str) (final : State) :
  str_lower (path_suffix input) = lit ".pdf" ->
  fitz_open input = Ok doc ->
  Forall (fun pg => page_blank pg = true) doc ->
  process (new_normalizer input output out err files) = (Ok output_path, final) ->
  removed_blanks final = length doc
  /\ removed_duplicates final = 0
  /\ exists book, WriteEpub output_path book ∈ fs final /\ eb_chapters book = [].
Proof.
  intros Hext Hopen Hblank Hrun.
  destruct (process_returns _ _ _ Hrun)
    as (chapters & self1 & metadata & Hx & Hb & Hd & Hw).
  destruct (extract_chapters_pdf
              (log_message (new_normalizer input output out err files)
                 (lit "Starting normalization of: " ++ input)) doc Hext Hopen)
    as (self1' & Hx' & Hn & Hdup).
  cbn [input_path new_normalizer] in Hx. rewrite Hx' in Hx.
  destruct (numbered_all_blank doc 0 Hblank) as [Hnone Hall].
  rewrite Hnone in Hx. rewrite Hall in Hn.
  injection Hx as <- <-.
  cbn [map deduplicate_chapters fst snd] in Hb, Hd, Hw.
  cbn [removed_blanks removed_duplicates log_message print new_normalizer]
    in Hn, Hdup.
  split; [lia|]. split; [lia|].
  eexists. split; [exact Hw|]. done.
Qed.

End EmptyBook.

(** ** Markup of a page, titles and file names *)

Section Markup.
Context `{!Externals}.

Lemma foldl_block_iter_text (blocks : list Block) (acc : list str) :
  foldl block_iter acc blocks
  = foldl block_iter acc (base.filter is_text_block blocks).
Proof.
  revert acc. induction blocks as [|b blocks IH]; intros acc; [done|].
  rewrite filter_cons. cbn [foldl]. unfold block_iter at 2.
  case_decide as Hb.
  - cbn [foldl]. unfold block_iter at 3. unfold is_text_block in Hb.
    rewrite Hb. apply IH.
  - unfold is_text_block in Hb. rewrite IH.
    destruct (block_type b) as [[| |]|]; done.
Qed.

Lemma foldl_block_iter_other (blocks : list Block) (acc : list str) :
  foldl block_iter acc
    (base.filter (fun b => ~ is_text_block b) blocks) = acc.
Proof.
  rewrite foldl_block_iter_text.
  replace (base.filter is_text_block
             (base.filter (fun b => ~ is_text_block b) blocks))
    with (@nil Block); [done|].
  induction blocks as [|b blocks IH]; [done|].
  rewrite filter_cons. case_decide; [|done].
  rewrite filter_cons. by case_decide.
Qed.

Lemma foldl_para_iter (paras acc : list str) :
  foldl para_iter acc paras
  = acc ++ map (fun para => lit "<p>" ++ strip para ++ lit "</p>")
             (base.filter (fun para => strip para <> []) paras).
Proof.
  revert acc. induction paras as [|para paras IH]; intros acc.
  - cbn. by rewrite app_nil_r.
  - cbn [foldl]. rewrite IH, filter_cons. unfold para_iter.
    case_decide as Hs.
    + assert (str_empty (strip para) = false) as ->
        by (by destruct (strip para)).
      cbn [map]. by rewrite <- app_assoc.
    + by rewrite Hs.
Qed.

(** X14: blocks that are not text blocks (type 0) add nothing to the markup
    of a page, and a page without text blocks gets the paragraphs of its
    plain text: one [<p>] for each piece between blank lines that is not
    all whitespace, stripped, joined by newlines. *)
Theorem page_markup_ignores_other_blocks (blocks : list Block)
    (fallback_text : str) :
  blocks_to_html blocks fallback_text
  = blocks_to_html (base.filter is_text_block blocks) fallback_text
  /\ blocks_to_html (base.filter (fun b => ~ is_text_block b) blocks)
       fallback_text
     = str_join nl (fallback_paragraphs fallback_text).
Proof.
  unfold blocks_to_html. split.
  - by rewrite <- foldl_block_iter_text.
  - rewrite foldl_block_iter_other. by rewrite foldl_para_iter.
Qed.

Lemma first_heading_some (tags : list str) (content t : str) :
  first_heading tags content = Some t ->
  exists tag h,
    tag ∈ tags /\ soup_find_text tag content = Some h /\ t = strip h.
Proof.
  induction tags as [|tag tags IH]; [done|]. cbn [first_heading].
  destruct (soup_find_text tag content) as [h|] eqn:Hfind.
  - intros [= <-]. exists tag, h. split; [left|done].
  - intros (tag' & h & Hin & Hf & Ht)%IH. exists tag', h. split; [by right|done].
Qed.

(** X15: the title of a chapter extracted from an EPUB is the stripped text
    of a heading of the document, and then it is not empty, or else the name
    of the item; a first-level heading with text wins over all others.  So a
    title is empty only if the name of the item is. *)
Theorem epub_title_falls_back_to_item_name (item : Item) :
  let content := bytes_decode_ignore (item_content item) in
  let title := (epub_chapter item).1.1 in
  (title = item_name item
   \/ exists tag h,
        tag ∈ heading_tags /\ soup_find_text tag content = Some h
        /\ title = strip h /\ title <> [])
  /\ (item_name item <> [] -> title <> [])
  /\ (forall h, soup_find_text (lit "h1") content = Some h -> strip h <> [] ->
        title = strip h).
Proof.
  cbn zeta. unfold epub_chapter. cbn [fst].
  set (content := bytes_decode_ignore (item_content item)).
  split; [|split].
  - destruct (first_heading heading_tags content) as [t|] eqn:Hh; [|by left].
    destruct t as [|c t]; cbn [str_empty]; [by left|]. right.
    apply first_heading_some in Hh as (tag & h & Hin & Hf & Ht).
    exists tag, h. by rewrite <- Ht.
  - intros Hname.
    destruct (first_heading heading_tags content) as [[|c t]|]; done.
  - intros h Hfind Hne. unfold heading_tags. cbn [first_heading].
    rewrite Hfind. by destruct (strip h).
Qed.

Lemma lit_inj (s1 s2 : string) : lit s1 = lit s2 -> s1 = s2.
Proof.
  unfold lit. intros Heq.
  rewrite <- (String.string_of_list_ascii_of_string s1),
    <- (String.string_of_list_ascii_of_string s2).
  f_equal. revert Heq.
  generalize (String.list_ascii_of_string s1) (String.list_ascii_of_string s2).
  induction l as [|a l IH]; intros [|b l']; cbn [map]; try done.
  intros [= Hab Hl]. f_equal; [|by apply IH].
  by rewrite <- (Ascii.ascii_N_embedding a), <- (Ascii.ascii_N_embedding b), Hab.
Qed.

Lemma chapter_file_name_inj (i j : nat) :
  chapter_file_name i = chapter_file_name j -> i = j.
Proof.
  unfold chapter_file_name, str_of_nat.
  intros Heq%app_inv_head%app_inv_tail%lit_inj.
  apply (inj pretty) in Heq. lia.
Qed.

Lemma imap_build_chapter (metadata : Metadata) (chapters : list Chapter)
    (k : nat) :
  let built := imap (fun i => build_chapter metadata (k + i)) chapters in
  map eh_title built = map chapter_title chapters
  /\ map eh_content built
     = map (fun c => normalize_html (chapter_html c)) chapters
  /\ map eh_file_name built = map chapter_file_name (seq k (length chapters))
  /\ Forall (fun e => eh_lang e = md_language metadata) built.
Proof.
  revert k. induction chapters as [|c cs IH]; intros k.
  - cbn. repeat split; constructor.
  - cbn zeta. rewrite imap_cons. cbn [map length seq].
    destruct (IH (S k)) as (Ht & Hc & Hf & Hl). cbn zeta in Ht, Hc, Hf, Hl.
    rewrite (imap_ext _ (fun i => build_chapter metadata (S k + i)) cs);
      [|intros i x _; cbn; f_equal; lia].
    rewrite Ht, Hc, Hf. rewrite Nat.add_0_r.
    repeat split; [by destruct c..|]. constructor; [by destruct c|done].
Qed.

(** X16: the chapters of the book built follow the chapters given, in order:
    same titles, the normalized markup of each, the language of the metadata,
    and the file names [chapter_1.xhtml], [chapter_2.xhtml], ..., which are
    pairwise distinct. *)
Theorem book_chapters_follow_survivors (chapters : list Chapter)
    (metadata : Metadata) :
  let built := eb_chapters (build_epub chapters metadata) in
  map eh_title built = map chapter_title chapters
  /\ map eh_content built
     = map (fun c => normalize_html (chapter_html c)) chapters
  /\ map eh_file_name built = map chapter_file_name (seq 0 (length chapters))
  /\ NoDup (map eh_file_name built)
  /\ Forall (fun e => eh_lang e = md_language metadata) built.
Proof.
  cbn zeta. unfold build_epub. cbn [eb_chapters].
  destruct (imap_build_chapter metadata chapters 0) as (Ht & Hc & Hf & Hl).
  cbn zeta in Ht, Hc, Hf, Hl.
  rewrite (imap_ext _ (build_chapter metadata) chapters) in Ht, Hc, Hf, Hl
    by done.
  split; [done|]. split; [done|]. split; [done|]. split; [|done].
  rewrite Hf.
  assert (Inj (=) (=) chapter_file_name)
    by (intros i j; apply chapter_file_name_inj).
  apply (NoDup_fmap_2 chapter_file_name), NoDup_seq.
Qed.

End Markup.

(** ** Blankness and words *)

Lemma without_whitespace_segments (s : str) :
  without_whitespace s = concat (segments s).
Proof.
  induction s as [|c s IH]; [done|].
  unfold without_whitespace in *. rewrite filter_cons. cbn [segments].
  destruct (isspace c) eqn:Hc.
  - case_decide; [done|]. by rewrite IH.
  - case_decide; [|done]. rewrite IH.
    pose proof (segments_not_nil s). by destruct (segments s).
Qed.

Lemma concat_filter_nonempty (l : list str) :
  concat (base.filter nonempty l) = concat l.
Proof.
  induction l as [|x l IH]; [done|]. destruct x as [|c x].
  - by rewrite filter_nonempty_nil.
  - rewrite filter_nonempty_cons. cbn [concat]. by rewrite IH.
Qed.

Lemma is_blank_page_length (text html : str) :
  is_blank_page text html = (length (without_whitespace text) <? 10).
Proof.
  unfold is_blank_page, re_sub_ws. rewrite re_sub_ws_from_nil.
  pose proof (strip_length_ge text).
  destruct (length (without_whitespace text) <? 10) eqn:H1; [done|].
  apply Nat.ltb_ge in H1.
  destruct (length (strip text) <? 10) eqn:H2; [|done].
  apply Nat.ltb_lt in H2. lia.
Qed.

(** X17: whether a text is blank depends on its words alone, not on the
    whitespace between and around them: a text is blank exactly when its
    words have fewer than 10 characters in all, so two texts with the same
    words get the same verdict. *)
Theorem blank_verdict_depends_on_words (a b html_a html_b : str) :
  words a = words b ->
  is_blank_page a html_a = is_blank_page b html_b
  /\ is_blank_page a html_a = (length (concat (words a)) <? 10).
Proof.
  intros Hw. rewrite !is_blank_page_length, !without_whitespace_segments.
  unfold words in *. rewrite <- (concat_filter_nonempty (segments a)).
  rewrite <- (concat_filter_nonempty (segments b)). by rewrite Hw.
Qed.

(** ** The further properties at sample inputs *)

Section SampleSurvivors.
Import Sample.

(** X2 at the scenario: the survivors A and B. *)
Lemma no_survivor_duplicates_an_earlier_one_sample :
  chapter_hash unit_B <> chapter_hash unit_A
  /\ are_similar (chapter_text unit_B) (chapter_text unit_A) 95%float = false.
Proof.
  apply (no_survivor_duplicates_an_earlier_one (fresh "book.pdf")
           [unit_A; unit_B; unit_C; unit_D] 0 1 unit_A unit_B);
    [lia|vm_compute; reflexivity..].
Defined.

(** X6 at a unit without text that follows the unit A. *)
Lemma empty_text_is_dropped_by_hash_only_sample :
  (deduplicate_chapters (fresh "book.pdf")
     ([unit_A] ++ [Chapter3 (lit "E") [] []])).1
  = (deduplicate_chapters (fresh "book.pdf") [unit_A]).1
      ++ [Chapter3 (lit "E") [] []]
  <-> forall s, s ∈ (deduplicate_chapters (fresh "book.pdf") [unit_A]).1 ->
        chapter_hash s <> chapter_hash (Chapter3 (lit "E") [] []).
Proof.
  apply (empty_text_is_dropped_by_hash_only (fresh "book.pdf")
           [unit_A] (Chapter3 (lit "E") [] [])).
  reflexivity.
Defined.

(** X7 at the change of every chapter into a 3-tuple. *)
Lemma deduplication_reads_text_only_sample :
  (deduplicate_chapters (fresh "book.pdf")
     (map (fun c => Chapter3 (chapter_title c) (chapter_html c) (chapter_text c))
        [Chapter2 (lit "Page 1") (lit "<p>One page of text.</p>");
         Chapter2 (lit "Page 2") (lit "<p>One page of text.</p>")])).1
  = map (fun c => Chapter3 (chapter_title c) (chapter_html c) (chapter_text c))
      (deduplicate_chapters (fresh "book.pdf")
         [Chapter2 (lit "Page 1") (lit "<p>One page of text.</p>");
          Chapter2 (lit "Page 2") (lit "<p>One page of text.</p>")]).1
  /\ removed_duplicates
       (deduplicate_chapters (fresh "book.pdf")
          (map (fun c => Chapter3 (chapter_title c) (chapter_html c)
                           (chapter_text c))
             [Chapter2 (lit "Page 1") (lit "<p>One page of text.</p>");
              Chapter2 (lit "Page 2") (lit "<p>One page of text.</p>")])).2
     = removed_duplicates
         (deduplicate_chapters (fresh "book.pdf")
            [Chapter2 (lit "Page 1") (lit "<p>One page of text.</p>");
             Chapter2 (lit "Page 2") (lit "<p>One page of text.</p>")]).2.
Proof.
  apply (deduplication_reads_text_only (fresh "book.pdf")
           (fun c => Chapter3 (chapter_title c) (chapter_html c) (chapter_text c))).
  intros []; reflexivity.
Defined.

(** X9 at the sample PDF. *)
Lemma process_writes_book_then_report_sample :
  lit "output/cleaned-book.epub" = book_path (output_dir (fresh "book.pdf"))
  /\ (exists book,
        fs (process (fresh "book.pdf")).2
        = fs (fresh "book.pdf")
            ++ [MakeDirs (output_dir (fresh "book.pdf"));
                WriteEpub (lit "output/cleaned-book.epub") book;
                WriteFile (report_path (output_dir (fresh "book.pdf")))
                  (report_text (process (fresh "book.pdf")).2
                     (lit "output/cleaned-book.epub"))])
  /\ (exists before after,
        report_text (process (fresh "book.pdf")).2
          (lit "output/cleaned-book.epub")
        = before ++ log_lines (log (process (fresh "book.pdf")).2) ++ after)
  /\ stderr (process (fresh "book.pdf")).2 = stderr (fresh "book.pdf").
Proof.
  apply (process_writes_book_then_report (fresh "book.pdf")).
  vm_compute. reflexivity.
Defined.


(** X17 at a text and the same words with other whitespace. *)
Lemma blank_verdict_depends_on_words_sample :
  is_blank_page (lit "  ab   c ") [] = is_blank_page (lit "ab c") []
  /\ is_blank_page (lit "  ab   c ") []
     = (length (concat (words (lit "  ab   c "))) <? 10).
Proof.
  apply (blank_verdict_depends_on_words (lit "  ab   c ") (lit "ab c") [] []).
  vm_compute. reflexivity.
Defined.

End SampleSurvivors.

Section UnreadableRuns.
#[local] Existing Instance Faulty.unreadable.

(** X11 at a PDF that cannot be opened. *)
Lemma unreadable_input_aborts_the_run_sample :
  (process (new_normalizer (lit "book.pdf") (lit "output") [] [] [])).1
  = Raise Faulty.corrupt
  /\ fs (process (new_normalizer (lit "book.pdf") (lit "output") [] [] [])).2
     = []
  /\ removed_blanks
       (process (new_normalizer (lit "book.pdf") (lit "output") [] [] [])).2
     = 0
  /\ removed_duplicates
       (process (new_normalizer (lit "book.pdf") (lit "output") [] [] [])).2
     = 0
  /\ length
       (log (process (new_normalizer (lit "book.pdf") (lit "output") [] [] [])).2)
     = 2
  /\ (path_exists (lit "book.pdf") = true ->
      (main (lit "normalize_epub.py" :: lit "book.pdf" :: []) [] [] []).1 = 1%Z
      /\ w_fs (main (lit "normalize_epub.py" :: lit "book.pdf" :: []) [] [] []).2
         = []
      /\ w_stderr
           (main (lit "normalize_epub.py" :: lit "book.pdf" :: []) [] [] []).2
         = [] ++ [traceback_text Faulty.corrupt]).
Proof.
  apply (unreadable_input_aborts_the_run
           (lit "normalize_epub.py") (lit "book.pdf") (lit "output") [] [] [] []
           Faulty.corrupt).
  left. split; vm_compute; reflexivity.
Defined.

End UnreadableRuns.

Section BlankRuns.
#[local] Existing Instance Faulty.all_blank.

(** X13 at a PDF of three blank pages. *)
Lemma all_blank_document_gives_empty_book_sample :
  removed_blanks
    (process (new_normalizer (lit "book.pdf") (lit "output") [] [] [])).2
  = length Faulty.blank_pages
  /\ removed_duplicates
       (process (new_normalizer (lit "book.pdf") (lit "output") [] [] [])).2
     = 0
  /\ exists book,
       WriteEpub (lit "output/cleaned-book.epub") book
       ∈ fs (process (new_normalizer (lit "book.pdf") (lit "output") [] [] [])).2
       /\ eb_chapters book = [].
Proof.
  apply (all_blank_document_gives_empty_book
           (lit "book.pdf") (lit "output") [] [] [] Faulty.blank_pages).
  - vm_compute. reflexivity.
  - reflexivity.
  - repeat constructor.
  - vm_compute. reflexivity.
Defined.

End BlankRuns.

(** ** Titles of the chapters of a PDF *)

Section PdfTitles.
Context `{!Externals}.

Lemma numbered_lookup (doc : list Page) (page_num k : nat) (pg : Page) :
  (k, pg) ∈ numbered page_num doc ->
  page_num <= k /\ doc !! (k - page_num) = Some pg.
Proof.
  revert page_num. induction doc as [|p doc IH]; intros page_num.
  - intros Hin. by apply elem_of_nil in Hin.
  - unfold numbered. cbn [length seq zip zip_with].
    intros [[= -> ->]|Hin]%elem_of_cons.
    + rewrite Nat.sub_diag. done.
    + apply IH in Hin as [Hle Hl]. split; [lia|].
      replace (k - page_num) with (S (k - S page_num)) by lia. done.
Qed.

Lemma numbered_fst (doc : list Page) (page_num : nat) :
  map fst (numbered page_num doc) = seq page_num (length doc).
Proof.
  revert page_num. induction doc as [|p doc IH]; intros page_num; [done|].
  unfold numbered in *. cbn [length seq zip zip_with map fst].
  by rewrite IH.
Qed.

Lemma page_title_inj (i j : nat) :
  lit "Page " ++ str_of_nat (i + 1) = lit "Page " ++ str_of_nat (j + 1) ->
  i = j.
Proof.
  unfold str_of_nat. intros Heq%app_inv_head%lit_inj.
  apply (inj pretty) in Heq. lia.
Qed.

(** X18: the chapters extracted from a PDF that opens: each comes from a
    page that is not blank and is titled [Page k] with [k] the number of the
    page in the document, counted from 1 (blank pages are skipped, not
    renumbered), so no two chapters share a title. *)
Theorem pdf_chapters_are_titled_by_page (self : State) (pdf_path : str)
    (doc : list Page) :
  fitz_open pdf_path = Ok doc ->
  exists chapters self',
    pdf_to_html_chapters self pdf_path = (Ok chapters, self')
    /\ NoDup (map fst chapters)
    /\ (forall title html, (title, html) ∈ chapters ->
          exists k pg,
            doc !! k = Some pg /\ page_blank pg = false
            /\ title = lit "Page " ++ str_of_nat (k + 1)
            /\ html = blocks_to_html (page_blocks pg) (page_text pg)).
Proof.
  intros Hopen. unfold pdf_to_html_chapters. rewrite Hopen.
  pose proof (pdf_pages_from_spec doc 0 []
                (log_message self (lit "Converting PDF: " ++ pdf_path)))
    as (Hc & _ & _).
  destruct (pdf_pages_from 0 doc _) as [chs self'].
  cbn [fst snd app] in Hc. subst chs. eexists _, _. split; [done|]. split.
  - rewrite map_map.
    rewrite (map_ext (fun np : nat * Page => (pdf_chapter np).1)
               (fun np => lit "Page " ++ str_of_nat (np.1 + 1))) by done.
    rewrite <- (map_map fst (fun k => lit "Page " ++ str_of_nat (k + 1))).
    assert (Inj (=) (=) (fun k => lit "Page " ++ str_of_nat (k + 1)))
      by (intros i j; apply page_title_inj).
    apply (NoDup_fmap_2 (fun k => lit "Page " ++ str_of_nat (k + 1))).
    apply (sublist_NoDup _ (map fst (numbered 0 doc))).
    + rewrite numbered_fst. apply NoDup_seq.
    + apply (fmap_sublist fst), sublist_filter.
  - intros title html Hin.
    apply list_elem_of_fmap in Hin as ([k pg] & [= -> ->] & Hin).
    apply list_elem_of_filter in Hin as [Hblank Hin].
    apply numbered_lookup in Hin as [_ Hl]. rewrite Nat.sub_0_r in Hl.
    exists k, pg. done.
Qed.

End PdfTitles.

Section SamplePdf.
Import Sample.

(** X18 at the sample document. *)
Lemma pdf_chapters_are_titled_by_page_sample :
  exists chapters self',
    pdf_to_html_chapters (fresh "book.pdf") (lit "book.pdf")
    = (Ok chapters, self')
    /\ NoDup (map fst chapters)
    /\ (forall title html, (title, html) ∈ chapters ->
          exists k pg,
            pages !! k = Some pg /\ page_blank pg = false
            /\ title = lit "Page " ++ str_of_nat (k + 1)
            /\ html = blocks_to_html (page_blocks pg) (page_text pg)).
Proof.
  apply (pdf_chapters_are_titled_by_page (fresh "book.pdf") (lit "book.pdf")).
  reflexivity.
Defined.

End SamplePdf.
